(** * PIXSHOP backend: product fulfillment and the save / generate pipeline

    A shallow embedding of the Express server of the repository.  Two
    revisions of the server are kept in the sources:

    - [Backend]: [src/backend/server.js];
    - [Part003]: the first file of [src/unnamed/part_003] (the revision that
      adds the description endpoints).

    They differ in [checkFulfillment], in how the public image URL is built
    and in the description routes, which only [Part003] registers.  The
    second file of [src/unnamed/part_003] is the older generation-log server;
    it has no Product collection, and its format inference and save route
    are modelled apart, in [Legacy].

    Handlers are functions from a request and a [World] (the document
    store and the file system) to a response and a new [World].  Library
    calls whose code is not part of the repository (mongoose's Number cast,
    Node's base64 codec, [path.join], the outbound [axios.post]) are
    parameters of the model, and so is whether [fs.writeFileSync] succeeds
    at a path.  Saving a document to the store always succeeds. *)

From Stdlib Require Import ZArith Ascii String List Bool Lia.
From stdpp Require Import base option list strings pretty gmap fin_maps.

Local Open Scope string_scope.
Local Open Scope Z_scope.

(** ** JavaScript strings *)

Module Js.

(** [!s] for a request field: [undefined], [null] and [EmptyString] all take the
    same branch, so an absent field is represented by the empty string. *)
Definition falsy (s : string) : bool := String.eqb s EmptyString.

(** Truthiness of a nullable String path of a document. *)
Definition truthy (v : option string) : bool :=
  match v with
  | Some s => negb (String.eqb s EmptyString)
  | None => false
  end.

(** [a && b] on values: the left operand when it is falsy, else the right. *)
Definition and (a b : option string) : option string :=
  if truthy a then b else a.

(** [s.startsWith(p)] *)
Definition startsWith (p s : string) : bool := String.prefix p s.

(** [s.includes(p)] *)
Definition includes (p s : string) : bool :=
  match String.index 0 p s with
  | Some _ => true
  | None => false
  end.

(** [s.split(c)] for a one-character separator. *)
Fixpoint split_from (c : ascii) (acc s : string) : list string :=
  match s with
  | EmptyString => [String.rev acc]
  | String d r =>
      if Ascii.eqb d c then String.rev acc :: split_from c EmptyString r
      else split_from c (String d acc) r
  end.

Definition split (c : ascii) (s : string) : list string :=
  split_from c EmptyString s.

(** The rest of [s] after the prefix [p], when [s] starts with [p]. *)
Fixpoint strip_prefix (p s : string) : option string :=
  match p, s with
  | EmptyString, _ => Some s
  | String a p', String b s' =>
      if Ascii.eqb a b then strip_prefix p' s' else None
  | String _ _, EmptyString => None
  end.

(** The longest prefix matched by [[^;]*]. *)
Fixpoint upto_semicolon (s : string) : string :=
  match s with
  | EmptyString => EmptyString
  | String c r =>
      if Ascii.eqb c ";" then EmptyString else String c (upto_semicolon r)
  end.

(** [s.match(/data:image\/([^;]+)/)]: the capture group of the leftmost
    match, [None] when the pattern matches nowhere. *)
Fixpoint match_data_image (s : string) : option string :=
  match s with
  | EmptyString => None
  | String _ r =>
      match strip_prefix "data:image/" s with
      | Some rest =>
          let cap := upto_semicolon rest in
          if String.eqb cap EmptyString then match_data_image r else Some cap
      | None => match_data_image r
      end
  end.

End Js.

(** ** The Product schema *)

Inductive Revision := Backend | Part003.

(** A document of the [Google_sheet_data] collection.  ['Created at']
    ([Backend]) and ['Created At'] ([Part003]) are the same Date path under
    two spellings; it is [Created_At] here. *)
Record Product := mkProduct {
  SKU : Z;
  Status : string;
  Pre_Image_URL : option string;
  Category : option string;
  Wax_Image_URL : option string;
  Cast_Image_URL : option string;
  Final_Image_URL : option string;
  Wax_Description : option string;
  Cast_Description : option string;
  Final_Description : option string;
  Created_At : Z
}.

(** The keys given to [new mongoose.Schema({...})].  (mongoose adds [_id]
    and [__v]; no field name built by the handlers can equal them.) *)
Definition productSchema (rev : Revision) : list string :=
  [ "SKU"; "Status"; "Pre-Image URL"; "Category";
    "Wax Image URL"; "Cast Image URL"; "Final Image URL";
    "Wax Description"; "Cast Description"; "Final Description";
    match rev with Backend => "Created at" | Part003 => "Created At" end ].

(** [productSchema.path(name)] as a condition: the path is declared. *)
Definition schema_path (rev : Revision) (name : string) : bool :=
  existsb (String.eqb name) (productSchema rev).

(** The schema default of a new document: status Pending, slots null. *)
Definition default_product (sku created : Z) : Product :=
  mkProduct sku "Pending" None None None None None None None None created.

Definition set_Status (s : string) (p : Product) : Product :=
  mkProduct (SKU p) s (Pre_Image_URL p) (Category p)
    (Wax_Image_URL p) (Cast_Image_URL p) (Final_Image_URL p)
    (Wax_Description p) (Cast_Description p) (Final_Description p)
    (Created_At p).

Definition set_Created_At (t : Z) (p : Product) : Product :=
  mkProduct (SKU p) (Status p) (Pre_Image_URL p) (Category p)
    (Wax_Image_URL p) (Cast_Image_URL p) (Final_Image_URL p)
    (Wax_Description p) (Cast_Description p) (Final_Description p) t.

(** [product[field] = value] for a String path that holds content; the
    handlers reach the assignment only with one of the six slot paths
    (see [image_field_recognized] and [desc_field_recognized]). *)
Definition assign (field value : string) (p : Product) : Product :=
  let v := Some value in
  if String.eqb field "Pre-Image URL" then
    mkProduct (SKU p) (Status p) v (Category p)
      (Wax_Image_URL p) (Cast_Image_URL p) (Final_Image_URL p)
      (Wax_Description p) (Cast_Description p) (Final_Description p)
      (Created_At p)
  else if String.eqb field "Wax Image URL" then
    mkProduct (SKU p) (Status p) (Pre_Image_URL p) (Category p)
      v (Cast_Image_URL p) (Final_Image_URL p)
      (Wax_Description p) (Cast_Description p) (Final_Description p)
      (Created_At p)
  else if String.eqb field "Cast Image URL" then
    mkProduct (SKU p) (Status p) (Pre_Image_URL p) (Category p)
      (Wax_Image_URL p) v (Final_Image_URL p)
      (Wax_Description p) (Cast_Description p) (Final_Description p)
      (Created_At p)
  else if String.eqb field "Final Image URL" then
    mkProduct (SKU p) (Status p) (Pre_Image_URL p) (Category p)
      (Wax_Image_URL p) (Cast_Image_URL p) v
      (Wax_Description p) (Cast_Description p) (Final_Description p)
      (Created_At p)
  else if String.eqb field "Wax Description" then
    mkProduct (SKU p) (Status p) (Pre_Image_URL p) (Category p)
      (Wax_Image_URL p) (Cast_Image_URL p) (Final_Image_URL p)
      v (Cast_Description p) (Final_Description p)
      (Created_At p)
  else if String.eqb field "Cast Description" then
    mkProduct (SKU p) (Status p) (Pre_Image_URL p) (Category p)
      (Wax_Image_URL p) (Cast_Image_URL p) (Final_Image_URL p)
      (Wax_Description p) v (Final_Description p)
      (Created_At p)
  else if String.eqb field "Final Description" then
    mkProduct (SKU p) (Status p) (Pre_Image_URL p) (Category p)
      (Wax_Image_URL p) (Cast_Image_URL p) (Final_Image_URL p)
      (Wax_Description p) (Cast_Description p) v
      (Created_At p)
  else p.

(** ** Fulfillment *)

(** [checkFulfillment(product)], with JavaScript's value-returning [&&].
    [Backend] starts the URL conjunction with ['Pre-Image URL']; [Part003]
    does not read that path. *)
Definition checkFulfillment (rev : Revision) (product : Product)
  : option string :=
  let urlsFilled :=
    match rev with
    | Backend =>
        Js.and (Js.and (Js.and (Pre_Image_URL product)
                               (Wax_Image_URL product))
                       (Cast_Image_URL product))
               (Final_Image_URL product)
    | Part003 =>
        Js.and (Js.and (Wax_Image_URL product) (Cast_Image_URL product))
               (Final_Image_URL product)
    end in
  let descsFilled :=
    Js.and (Js.and (Wax_Description product) (Cast_Description product))
           (Final_Description product) in
  Js.and urlsFilled descsFilled.

(** The status update that follows every slot assignment:
    [if (checkFulfillment(product) && product.Status === 'Pending')
       { product.Status = 'Fulfilled'; product['Created At'] = new Date(); }] *)
Definition recompute_status (rev : Revision) (now : Z) (product : Product)
  : Product :=
  if Js.truthy (checkFulfillment rev product)
     && String.eqb (Status product) "Pending"
  then set_Created_At now (set_Status "Fulfilled" product)
  else product.

(** The six required slots of the specification, all non-empty. *)
Definition six_slots_filled (p : Product) : Prop :=
  Js.truthy (Wax_Image_URL p) = true /\
  Js.truthy (Cast_Image_URL p) = true /\
  Js.truthy (Final_Image_URL p) = true /\
  Js.truthy (Wax_Description p) = true /\
  Js.truthy (Cast_Description p) = true /\
  Js.truthy (Final_Description p) = true.

(** ** Environment *)

Definition Buffer := list Byte.byte.

(** Library functions the handlers call. *)
Record Runtime := mkRuntime {
  (** mongoose's cast of the query value [{ 'SKU': sku }] to the Number
      path; [None] when the cast throws. *)
  castNumber : string -> option Z;
  (** [Buffer.from(s, 'base64')] *)
  base64_decode : string -> Buffer;
  (** [buf.toString('base64')] *)
  base64_encode : Buffer -> string;
  (** [path.join(dir, name)] *)
  path_join : string -> string -> string;
  (** [fs.writeFileSync(path, ...)] returns; when it is [false] the call
      throws (the directory of [path] does not exist, for one).  The server
      creates no directory after start-up, so this depends on the path
      only. *)
  write_ok : string -> bool
}.

(** [process.env] and the constants computed at start-up.  An unset
    variable is the empty string for [GOOGLE_AI_API_KEY] (only tested with
    [!]) and the text it interpolates to for the others. *)
Record Config := mkConfig {
  PORT : string;
  SERVER_BASE_URL : string;
  GOOGLE_AI_API_KEY : string;
  publicImagesDir : string
}.

(** The document store, keyed by the unique Number path ['SKU'], and the
    file system. *)
Record World := mkWorld {
  db : gmap Z Product;
  files : gmap string Buffer
}.

Inductive Exn := CastError | TypeError | WriteError.

Inductive Body :=
| JsonError (error : string)
| JsonThrown (prefix : string) (exn : Exn)
| JsonSaved (message : string) (product : Product)
| ImageBody (contentType modelUsed : string) (image : Buffer)
| NoRoute.

Record Response := mkResponse { status : Z; body : Body }.

(** ** Generation gateway *)

Record Prediction := mkPrediction {
  bytesBase64Encoded : option string;
  mimeType : option string
}.

(** What [await axios.post(...)] gives: a rejection (non-2xx status,
    timeout, network error) or [response.data.predictions]. *)
Inductive AxiosResult :=
| AxiosRejected (message : string)
| AxiosData (predictions : option (list Prediction)).

(** The outbound call: model, API key, prompt, encoded reference image. *)
Definition Post := string -> string -> string -> option string -> AxiosResult.

Inductive Event := Trying (model : string) | Posted (model : string).

Record Generated := mkGenerated {
  imageBuffer : Buffer;
  modelUsed : string;
  imageFormat : string
}.

Definition imagenModels : list string :=
  [ "imagen-4.0-generate-preview-06-06"; "imagen-3.0-generate-002" ].

Definition format_of_mime (mime : option string) : string :=
  if Js.truthy mime then
    let m := default EmptyString mime in
    if Js.includes "jpeg" m || Js.includes "jpg" m then "jpeg"
    else if Js.includes "gif" m then "gif"
    else if Js.includes "webp" m then "webp"
    else "png"
  else "png".

Section Gateway.

Variable rt : Runtime.
Variable cfg : Config.
Variable post : Post.

(** [referenceImagePath && { reference_image: { bytesBase64Encoded:
    fs.readFileSync(referenceImagePath).toString('base64') } }]: the
    encoded reference image, if a path was given; [None] when
    [readFileSync] throws because the file is not there. *)
Definition read_reference (fs : gmap string Buffer)
    (referenceImagePath : option string) : option (option string) :=
  if Js.truthy referenceImagePath then
    match fs !! default EmptyString referenceImagePath with
    | Some b => Some (Some (base64_encode rt b))
    | None => None
    end
  else Some None.

(** The body of the inner [try] for one model.  [None] is a throw caught
    by the inner [catch], which logs and continues. *)
Definition try_model (fs : gmap string Buffer) (prompt : string)
    (referenceImagePath : option string) (model : string)
  : option Generated * list Event :=
  match read_reference fs referenceImagePath with
  | None => (None, [Trying model])
  | Some ref =>
      let log := [Trying model; Posted model] in
      match post model (GOOGLE_AI_API_KEY cfg) prompt ref with
      | AxiosRejected _ => (None, log)
      | AxiosData (Some (prediction :: _)) =>
          if Js.truthy (bytesBase64Encoded prediction) then
            (Some (mkGenerated
                     (base64_decode rt
                        (default EmptyString (bytesBase64Encoded prediction)))
                     model
                     (format_of_mime (mimeType prediction))), log)
          else (None, log)
      | AxiosData _ => (None, log)
      end
  end.

(** [for (const model of imagenModels) { try {...} catch {continue} }] *)
Fixpoint try_models (fs : gmap string Buffer) (prompt : string)
    (referenceImagePath : option string) (models : list string)
  : option Generated * list Event :=
  match models with
  | [] => (None, [])
  | model :: rest =>
      match try_model fs prompt referenceImagePath model with
      | (Some g, log) => (Some g, log)
      | (None, log) =>
          let '(r, log') := try_models fs prompt referenceImagePath rest in
          (r, (log ++ log')%list)
      end
  end.

Definition KeyNotConfigured : string := "Google AI API key not configured".
Definition AllModelsFailed : string := "All configured Imagen models failed.".

(** [generateImageWithGoogleAI(prompt, referenceImagePath)]: the
    generated image, or the message of the error it throws. *)
Definition generateImageWithGoogleAI (fs : gmap string Buffer)
    (prompt : string) (referenceImagePath : option string)
  : (string + Generated) * list Event :=
  if Js.falsy (GOOGLE_AI_API_KEY cfg) then
    (inl ("Image generation failed: " ++ KeyNotConfigured), [])
  else
    match try_models fs prompt referenceImagePath imagenModels with
    | (Some g, log) => (inr g, log)
    | (None, log) => (inl ("Image generation failed: " ++ AllModelsFailed), log)
    end.

(** [POST /api/generate-image], after multer has stored the optional
    upload at [file]. *)
Definition generate_image (prompt : string) (file : option string)
    (w : World) : Response * World * list Event :=
  let referenceImagePath := file in
  if Js.falsy prompt then
    (mkResponse 400 (JsonError "Prompt is required"), w, [])
  else
    match generateImageWithGoogleAI (files w) prompt referenceImagePath with
    | (inr g, log) =>
        let res :=
          mkResponse 200
            (ImageBody ("image/" ++ imageFormat g) (modelUsed g)
               (imageBuffer g)) in
        let path := default EmptyString referenceImagePath in
        let w' :=
          if Js.truthy referenceImagePath
             && bool_decide (is_Some (files w !! path))
          then mkWorld (db w) (delete path (files w))
          else w in
        (res, w', log)
    | (inl message, log) =>
        (mkResponse 500 (JsonError ("Failed to generate image: " ++ message)),
         w, log)
    end.

End Gateway.

(** ** Update orchestrator *)

Section Orchestrator.

Variable rev : Revision.
Variable rt : Runtime.
Variable cfg : Config.

(** [const extension = formatMatch ? formatMatch[1].split(';')[0] : 'png'] *)
Definition extension_of (imageDataUrl : string) : string :=
  match Js.match_data_image imageDataUrl with
  | Some cap => default EmptyString (head (Js.split ";" cap))
  | None => "png"
  end.

(** [`${sku}_${imageType}.${extension}`] *)
Definition filename_of (sku imageType extension : string) : string :=
  sku ++ "_" ++ imageType ++ "." ++ extension.

Definition publicImageUrl_of (filename : string) : string :=
  match rev with
  | Backend => "http://localhost:" ++ PORT cfg ++ "/images/" ++ filename
  | Part003 => SERVER_BASE_URL cfg ++ "/images/" ++ filename
  end.

(** [POST /api/update-product-image]; [now] is the value of [new Date()]
    during the request.  ([Backend] registers the route a second time
    further down; Express never reaches that handler, since the first one
    always answers.) *)
Definition update_product_image (now : Z)
    (sku imageType imageDataUrl : string) (w : World) : Response * World :=
  if Js.falsy sku || Js.falsy imageType || Js.falsy imageDataUrl then
    (mkResponse 400
       (JsonError "SKU, imageType, and imageDataUrl are required"), w)
  else
    match castNumber rt sku with
    | None => (mkResponse 500 (JsonThrown "Failed to save image: " CastError), w)
    | Some key =>
    match db w !! key with
    | None =>
        (mkResponse 404
           (JsonError ("Product with SKU " ++ sku ++ " not found.")), w)
    | Some product =>
    if negb (Js.startsWith "data:image/" imageDataUrl) then
      (mkResponse 400 (JsonError "Invalid imageDataUrl format"), w)
    else
      match Js.split "," imageDataUrl !! 1%nat with
      | None =>
          (* Buffer.from(undefined, 'base64') throws *)
          (mkResponse 500 (JsonThrown "Failed to save image: " TypeError), w)
      | Some base64Data =>
      let imageBuffer := base64_decode rt base64Data in
      let extension := extension_of imageDataUrl in
      let filename := filename_of sku imageType extension in
      let imagePath := path_join rt (publicImagesDir cfg) filename in
      if negb (write_ok rt imagePath) then
        (* fs.writeFileSync throws *)
        (mkResponse 500 (JsonThrown "Failed to save image: " WriteError), w)
      else
      let w1 := mkWorld (db w) (<[imagePath := imageBuffer]> (files w)) in
      let publicImageUrl := publicImageUrl_of filename in
      let fieldToUpdate := imageType ++ " Image URL" in
      if negb (schema_path rev fieldToUpdate) then
        (mkResponse 400 (JsonError ("Invalid imageType: " ++ imageType)), w1)
      else
        let product := assign fieldToUpdate publicImageUrl product in
        let product := recompute_status rev now product in
        (mkResponse 200
           (JsonSaved ("Image for SKU " ++ sku ++ " saved as " ++ imageType
                       ++ " successfully.") product),
         mkWorld (<[key := product]> (db w1)) (files w1))
      end
    end
    end.

(** [POST /api/update-product-description], the route of [Part003]. *)
Definition update_product_description (now : Z)
    (sku descType description : string) (w : World) : Response * World :=
  if Js.falsy sku || Js.falsy descType || Js.falsy description then
    (mkResponse 400
       (JsonError "SKU, descType, and description are required"), w)
  else
    match castNumber rt sku with
    | None =>
        (mkResponse 500
           (JsonThrown "Failed to save description: " CastError), w)
    | Some key =>
    match db w !! key with
    | None =>
        (mkResponse 404
           (JsonError ("Product with SKU " ++ sku ++ " not found.")), w)
    | Some product =>
      let fieldToUpdate := descType ++ " Description" in
      if negb (schema_path Part003 fieldToUpdate) then
        (mkResponse 400 (JsonError ("Invalid descType: " ++ descType)), w)
      else
        let product := assign fieldToUpdate description product in
        let product := recompute_status Part003 now product in
        (mkResponse 200
           (JsonSaved ("Description for SKU " ++ sku ++ " saved as "
                       ++ descType ++ " successfully.") product),
         mkWorld (<[key := product]> (db w)) (files w))
    end
    end.

Inductive SaveRequest :=
| SaveImage (sku imageType imageDataUrl : string)
| SaveDescription (sku descType description : string).

(** Routing of a save request.  [Backend] registers no description
    route, so Express answers 404 without running any handler. *)
Definition handle_save (now : Z) (req : SaveRequest) (w : World)
  : Response * World :=
  match req with
  | SaveImage sku imageType imageDataUrl =>
      update_product_image now sku imageType imageDataUrl w
  | SaveDescription sku descType description =>
      match rev with
      | Part003 => update_product_description now sku descType description w
      | Backend => (mkResponse 404 NoRoute, w)
      end
  end.

(** A sequence of save requests, each with the clock value it sees. *)
Fixpoint run (reqs : list (Z * SaveRequest)) (w : World) : World :=
  match reqs with
  | [] => w
  | (now, req) :: rest => run rest (snd (handle_save now req w))
  end.

(** The status of the product stored under [key], if any. *)
Definition status_of (key : Z) (w : World) : option string :=
  Status <$> db w !! key.

(** The Pending -> Fulfilled edge, for the product under [key], at one
    request. *)
Definition fires (key : Z) (now : Z) (req : SaveRequest) (w : World) : bool :=
  bool_decide (status_of key w = Some "Pending")
  && bool_decide (status_of key (snd (handle_save now req w)) = Some "Fulfilled").

(** How many times that edge is taken along a sequence of requests. *)
Fixpoint transitions (key : Z) (reqs : list (Z * SaveRequest)) (w : World)
  : nat :=
  match reqs with
  | [] => 0%nat
  | (now, req) :: rest =>
      ((if fires key now req w then 1 else 0)
       + transitions key rest (snd (handle_save now req w)))%nat
  end.

End Orchestrator.

(** ** Slots, invariant and gateway observations *)

(** The six recognized slot names of the specification. *)
Definition six_slots : list string :=
  [ "Wax Image URL"; "Cast Image URL"; "Final Image URL";
    "Wax Description"; "Cast Description"; "Final Description" ].

(** [product[field]] for the String paths that hold content. *)
Definition lookup_field (field : string) (p : Product) : option string :=
  if String.eqb field "Pre-Image URL" then Pre_Image_URL p
  else if String.eqb field "Wax Image URL" then Wax_Image_URL p
  else if String.eqb field "Cast Image URL" then Cast_Image_URL p
  else if String.eqb field "Final Image URL" then Final_Image_URL p
  else if String.eqb field "Wax Description" then Wax_Description p
  else if String.eqb field "Cast Description" then Cast_Description p
  else if String.eqb field "Final Description" then Final_Description p
  else None.

(** One slot write followed by the status update, as both save handlers
    perform it on the document they found. *)
Definition write_slot (rev : Revision) (now : Z) (field value : string)
    (p : Product) : Product :=
  recompute_status rev now (assign field value p).

(** The fulfillment invariant of one document, for the check of [rev]. *)
Definition fulfillment_inv (rev : Revision) (p : Product) : Prop :=
  (Status p = "Pending" \/ Status p = "Fulfilled") /\
  (Status p = "Fulfilled" <-> Js.truthy (checkFulfillment rev p) = true).

(** The product a request's [sku] identifies: the cast, then the lookup. *)
Definition find_product (rt : Runtime) (sku : string) (w : World)
  : option Product :=
  match castNumber rt sku with
  | Some key => db w !! key
  | None => None
  end.

(** What the loop tests: the response has predictions and the first one
    has a non-empty [bytesBase64Encoded]. *)
Definition has_payload (r : AxiosResult) : bool :=
  match r with
  | AxiosData (Some (prediction :: _)) =>
      Js.truthy (bytesBase64Encoded prediction)
  | _ => false
  end.

(** The reading of the specification: the response contains at least one
    prediction with a non-empty [bytesBase64Encoded]. *)
Definition contains_payload (r : AxiosResult) : bool :=
  match r with
  | AxiosData (Some predictions) =>
      existsb (fun prediction => Js.truthy (bytesBase64Encoded prediction))
        predictions
  | _ => false
  end.

(** The models a run of the gateway tried, and those it called, in order. *)
Definition tried (log : list Event) : list string :=
  omap (fun e => match e with Trying m => Some m | Posted _ => None end) log.

Definition posted (log : list Event) : list string :=
  omap (fun e => match e with Posted m => Some m | Trying _ => None end) log.

(** The attempt for [model] yields an image payload. *)
Definition attempt_succeeds (rt : Runtime) (cfg : Config) (post : Post)
    (fs : gmap string Buffer) (prompt : string)
    (referenceImagePath : option string) (model : string) : bool :=
  match read_reference rt fs referenceImagePath with
  | Some ref => has_payload (post model (GOOGLE_AI_API_KEY cfg) prompt ref)
  | None => false
  end.

(** ** Data URLs *)

(** [data:image/<format>;base64,<payload>], as the client sends it. *)
Definition data_url (format payload : string) : string :=
  "data:image/" ++ format ++ ";base64," ++ payload.

(** The character [c] occurs in [s]. *)
Fixpoint occurs (c : ascii) (s : string) : bool :=
  match s with
  | EmptyString => false
  | String d r => Ascii.eqb d c || occurs c r
  end.

(** [path] names a file directly in the directory [dir]. *)
Definition directly_under (dir path : string) : Prop :=
  exists name, occurs "/" name = false /\ path = dir ++ "/" ++ name.

(** ** A concrete environment for evaluating the handlers *)

Module Demo.

Definition digit (c : ascii) : option Z :=
  let n := Z.of_nat (nat_of_ascii c) in
  if (48 <=? n) && (n <=? 57) then Some (n - 48) else None.

Fixpoint digits (acc : Z) (s : string) : option Z :=
  match s with
  | EmptyString => Some acc
  | String c r =>
      match digit c with
      | Some d => digits (10 * acc + d) r
      | None => None
      end
  end.

(** Decimal SKUs; [path.join] of a directory and a plain file name; the
    base64 codec is replaced by the bytes of the text itself, which the
    handlers never inspect; a write succeeds for a file directly in
    [public/images], which has no subdirectory. *)
Definition runtime : Runtime :=
  mkRuntime
    (fun s => if Js.falsy s then None else digits 0 s)
    list_byte_of_string
    string_of_list_byte
    (fun dir name => dir ++ "/" ++ name)
    (fun path =>
       match Js.strip_prefix "public/images/" path with
       | Some name => negb (occurs "/" name)
       | None => false
       end).

Definition config : Config :=
  mkConfig "5000" "http://localhost:5000" "test-key" "public/images".

Definition no_key : Config :=
  mkConfig "5000" "http://localhost:5000" EmptyString "public/images".

(** One pending product, SKU 1001, all slots empty. *)
Definition world : World :=
  mkWorld {[ 1001 := default_product 1001 0 ]} ∅.

Definition png : string := "data:image/png;base64,AAAA".
Definition jpeg : string := "data:image/jpeg;base64,BBBB".

(** Every outbound call is rejected. *)
Definition all_fail : Post := fun _ _ _ _ => AxiosRejected "timeout".

(** The first model returns two predictions, the image in the second one
    only; the other model returns one prediction with an image. *)
Definition image_in_second_prediction : Post :=
  fun model _ _ _ =>
    if String.eqb model "imagen-4.0-generate-preview-06-06" then
      AxiosData (Some [mkPrediction None None;
                       mkPrediction (Some "QUJD") (Some "image/png")])
    else AxiosData (Some [mkPrediction (Some "WFla") (Some "image/jpeg")]).

(** Every outbound call returns one prediction with a payload. *)
Definition all_succeed : Post :=
  fun _ _ _ _ =>
    AxiosData (Some [mkPrediction (Some "QUJD") (Some "image/png")]).

End Demo.

(** A pending product of [Backend] whose descriptions and first two image
    URLs are set, and whose Pre-Image URL is null. *)
Definition five_of_six : Product :=
  mkProduct 1001 "Pending" None None
    (Some "http://localhost:5000/images/1001_Wax.png")
    (Some "http://localhost:5000/images/1001_Cast.png") None
    (Some "wax text") (Some "cast text") (Some "final text") 0.

(** The scenario of the specification: six saves fulfil SKU 1001. *)
Definition five_saves : list (Z * SaveRequest) :=
  [ (1, SaveImage "1001" "Wax" Demo.png);
    (2, SaveDescription "1001" "Wax" "wax text");
    (3, SaveImage "1001" "Cast" Demo.png);
    (4, SaveImage "1001" "Final" Demo.png);
    (5, SaveDescription "1001" "Cast" "cast text") ].

Definition sixth_save : SaveRequest :=
  SaveDescription "1001" "Final" "final text".

Definition seventh_save : SaveRequest := SaveImage "1001" "Wax" Demo.jpeg.

Definition seven_saves : list (Z * SaveRequest) :=
  (five_saves ++ [(6, sixth_save); (7, seventh_save)])%list.

Definition after_five : World :=
  run Part003 Demo.runtime Demo.config five_saves Demo.world.

Definition after_six : World :=
  snd (handle_save Part003 Demo.runtime Demo.config 6 sixth_save after_five).

(** ** Uploads and the error middleware *)

Inductive ServerError :=
| MulterError (code message : string)
| PlainError (message : string).

(** [fileFilter]: [cb(null, true)] is [None], [cb(new Error(...), false)]
    is the error. *)
Definition fileFilter (mimetype : string) : option ServerError :=
  if Js.startsWith "image/" mimetype then None
  else Some (PlainError "Only image files are allowed!").

(** [filename]: [Date.now() + '-' + file.originalname]. *)
Definition stored_filename (now : N) (originalname : string) : string :=
  pretty now ++ "-" ++ originalname.

(** [app.use((error, req, res, next) => ...)] *)
Definition error_middleware (error : ServerError) : Response :=
  match error with
  | MulterError code message =>
      if String.eqb code "LIMIT_FILE_SIZE" then
        mkResponse 400 (JsonError "File too large. Maximum size is 10MB.")
      else mkResponse 500 (JsonError message)
  | PlainError message => mkResponse 500 (JsonError message)
  end.

(** ** Description generation ([Part003]) *)

Record Part := mkPart { text : option string }.
Record Content := mkContent { parts : option (list Part) }.
Record Candidate := mkCandidate { content : option Content }.

(** What [await axios.post(url, ...)] gives for the text model: a
    rejection, or [response.data.candidates]. *)
Inductive TextResult :=
| TextRejected (message : string)
| TextData (candidates : option (list Candidate)).

(** The outbound call: model, API key, prompt. *)
Definition TextPost := string -> string -> string -> TextResult.

(** [response.data.candidates[0].content.parts[0].text]: [None] when a
    property is read from [undefined] (a TypeError), else the value of
    [text], which may itself be absent. *)
Definition extract_text (candidates : option (list Candidate))
  : option (option string) :=
  match candidates with
  | Some (candidate :: _) =>
      match content candidate with
      | Some c =>
          match parts c with
          | Some (part :: _) => Some (text part)
          | _ => None
          end
      | None => None
      end
  | _ => None
  end.

Definition textModel : string := "gemini-2.5-flash".

(** [generateDescriptionWithGoogleAI(prompt)], with
    [GOOGLE_AI_TEXT_API_KEY] as [textKey]: the text, or the message of the
    error it throws; and the models it called. *)
Definition generateDescriptionWithGoogleAI (textKey : string)
    (post : TextPost) (prompt : string)
  : (string + option string) * list string :=
  if Js.falsy textKey then (inl "Text generation failed", [])
  else
    match post textModel textKey prompt with
    | TextRejected _ => (inl "Text generation failed", [textModel])
    | TextData candidates =>
        match extract_text candidates with
        | Some t => (inr t, [textModel])
        | None => (inl "Text generation failed", [textModel])
        end
    end.

Inductive DescBody :=
| DescError (error : string)
| DescJson (description : option string).

Record DescResponse := mkDescResponse { desc_status : Z; desc_body : DescBody }.

(** [POST /api/generate-description] *)
Definition generate_description (textKey : string) (post : TextPost)
    (prompt : string) : DescResponse * list string :=
  if Js.falsy prompt then
    (mkDescResponse 400 (DescError "Prompt is required"), [])
  else
    match generateDescriptionWithGoogleAI textKey post prompt with
    | (inr description, calls) =>
        (mkDescResponse 200 (DescJson description), calls)
    | (inl message, calls) =>
        (mkDescResponse 500
           (DescError ("Failed to generate description: " ++ message)), calls)
    end.

(** ** The generation-log server (second file of [src/unnamed/part_003]) *)

Module Legacy.

(** [imageBuffer[i] === v] *)
Definition byte_is (imageBuffer : Buffer) (i : nat) (v : Byte.byte) : bool :=
  match imageBuffer !! i with
  | Some b => Byte.eqb b v
  | None => false
  end.

(** The format inference of this server's [generateImageWithGoogleAI]:
    from the MIME type when there is one, else from the first two bytes. *)
Definition format_of (mime : option string) (imageBuffer : Buffer) : string :=
  if Js.truthy mime then
    let m := default EmptyString mime in
    if Js.includes "jpeg" m || Js.includes "jpg" m then "jpeg"
    else if Js.includes "png" m then "png"
    else if Js.includes "gif" m then "gif"
    else if Js.includes "webp" m then "webp"
    else "png"
  else
    if byte_is imageBuffer 0 Byte.xff && byte_is imageBuffer 1 Byte.xd8
    then "jpeg"
    else if byte_is imageBuffer 0 Byte.x89 && byte_is imageBuffer 1 Byte.x50
    then "png"
    else if byte_is imageBuffer 0 Byte.x47 && byte_is imageBuffer 1 Byte.x49
    then "gif"
    else "png".

(** A document of the [images] collection. *)
Record Image := mkImage {
  _id : string;
  prompt : string;
  imageUrl : string;
  imageData : option Buffer;
  imageFormat : string;
  imageSize : Z;
  referenceImage : string;
  modelUsed : string;
  createdAt : Z
}.

Inductive SaveBody :=
| SaveError (error : string)
| SaveThrown (prefix : string) (exn : Exn)
| Saved (message imageId modelUsed : string) (imageSize : Z)
    (imageFormat : string).

Record SaveResponse := mkSaveResponse { status : Z; body : SaveBody }.

(** [POST /api/save-image].  [id] is the [_id] mongoose gives the new
    document and [now] its [createdAt] default; an absent [imageSize] is 0
    and an absent [modelUsed] the empty string, which [||] treats alike.
    The collection is the list of its documents, oldest first. *)
Definition save_image (rt : Runtime) (id : string) (now : Z)
    (prompt imageUrl referenceImage modelUsed : string) (imageSize : Z)
    (images : list Image) : SaveResponse * list Image :=
  if Js.falsy prompt || Js.falsy imageUrl then
    (mkSaveResponse 400 (SaveError "Prompt and imageUrl are required"), images)
  else
    let decoded :=
      if Js.startsWith "data:image/" imageUrl then
        match Js.split "," imageUrl !! 1%nat with
        | None => None
        | Some base64Data =>
            Some (Some (base64_decode rt base64Data),
                  match Js.match_data_image imageUrl with
                  | Some cap => cap
                  | None => "png"
                  end)
        end
      else Some (None, "png") in
    match decoded with
    | None =>
        (mkSaveResponse 500 (SaveThrown "Failed to save image: " TypeError),
         images)
    | Some (imageData, imageFormat) =>
        let newImage :=
          mkImage id prompt imageUrl imageData imageFormat
            (if imageSize =? 0 then
               match imageData with
               | Some b => Z.of_nat (length b)
               | None => 0
               end
             else imageSize)
            referenceImage
            (if Js.falsy modelUsed then "unknown" else modelUsed)
            now in
        (mkSaveResponse 200
           (Saved "Image saved successfully" (_id newImage)
              (Legacy.modelUsed newImage) (Legacy.imageSize newImage)
              (Legacy.imageFormat newImage)),
         (images ++ [newImage])%list)
    end.

End Legacy.

(** ** Requests that fill a slot *)

(** [req] is a save for the product under [key] that passes every check of
    its handler, whose file write (for an image) succeeds, and that writes
    the slot [field]. *)
Definition fills (rt : Runtime) (cfg : Config) (key : Z) (field : string)
    (req : SaveRequest) : Prop :=
  match req with
  | SaveImage sku imageType imageDataUrl =>
      sku <> EmptyString /\ castNumber rt sku = Some key /\
      In field six_slots /\ field = imageType ++ " Image URL" /\
      Js.startsWith "data:image/" imageDataUrl = true /\
      is_Some (Js.split "," imageDataUrl !! 1%nat) /\
      write_ok rt
        (path_join rt (publicImagesDir cfg)
           (filename_of sku imageType (extension_of imageDataUrl))) = true
  | SaveDescription sku descType description =>
      sku <> EmptyString /\ castNumber rt sku = Some key /\
      In field six_slots /\ field = descType ++ " Description" /\
      description <> EmptyString
  end.

(** * Proofs *)

(** ** Slots and fulfillment: basic facts *)

Lemma truthy_and a b : Js.truthy (Js.and a b) = Js.truthy a && Js.truthy b.
Proof. unfold Js.and. destruct (Js.truthy a) eqn:E; simpl; auto. Qed.

Lemma truthy_Some_iff s : Js.truthy (Some s) = true <-> s <> EmptyString.
Proof.
  simpl. rewrite negb_true_iff. split.
  - intros H ->. discriminate.
  - intros H. apply String.eqb_neq. exact H.
Qed.

Lemma falsy_false_iff s : Js.falsy s = false <-> s <> EmptyString.
Proof. unfold Js.falsy. apply String.eqb_neq. Qed.

Lemma check_Part003 p :
  Js.truthy (checkFulfillment Part003 p) = true <-> six_slots_filled p.
Proof.
  unfold checkFulfillment, six_slots_filled.
  rewrite !truthy_and, !andb_true_iff. tauto.
Qed.

Lemma check_Backend p :
  Js.truthy (checkFulfillment Backend p) = true <->
  Js.truthy (Pre_Image_URL p) = true /\ six_slots_filled p.
Proof.
  unfold checkFulfillment, six_slots_filled.
  rewrite !truthy_and, !andb_true_iff. tauto.
Qed.

(** The status and the timestamp are not read by the check. *)
Lemma check_set_Status rev s p :
  checkFulfillment rev (set_Status s p) = checkFulfillment rev p.
Proof. destruct rev; reflexivity. Qed.

Lemma check_set_Created_At rev t p :
  checkFulfillment rev (set_Created_At t p) = checkFulfillment rev p.
Proof. destruct rev; reflexivity. Qed.

(** Decide [ty ++ suffix = name] for a literal [name] by walking [ty]. *)
Ltac walk_string H ty :=
  repeat (destruct ty as [| ? ty]; simpl in H;
          [ try discriminate H | try discriminate H; injection H as ? H ];
          subst).

Lemma image_field_recognized rev imageType :
  schema_path rev (imageType ++ " Image URL") = true <->
  imageType = "Wax" \/ imageType = "Cast" \/ imageType = "Final".
Proof.
  split.
  - unfold schema_path, productSchema. simpl.
    rewrite !orb_true_iff, !String.eqb_eq.
    intros H.
    repeat (destruct H as [H | H]); try discriminate H;
      try (destruct rev);
      try (exfalso; walk_string H imageType; fail);
      try (left; walk_string H imageType; reflexivity);
      try (right; left; walk_string H imageType; reflexivity);
      try (right; right; walk_string H imageType; reflexivity).
  - intros [-> | [-> | ->]]; destruct rev; reflexivity.
Qed.

Lemma desc_field_recognized rev descType :
  schema_path rev (descType ++ " Description") = true <->
  descType = "Wax" \/ descType = "Cast" \/ descType = "Final".
Proof.
  split.
  - unfold schema_path, productSchema. simpl.
    rewrite !orb_true_iff, !String.eqb_eq.
    intros H.
    repeat (destruct H as [H | H]); try discriminate H;
      try (destruct rev);
      try (exfalso; walk_string H descType; fail);
      try (left; walk_string H descType; reflexivity);
      try (right; left; walk_string H descType; reflexivity);
      try (right; right; walk_string H descType; reflexivity).
  - intros [-> | [-> | ->]]; destruct rev; reflexivity.
Qed.

(** The schema test of the handlers accepts exactly the recognized slots. *)
Lemma image_field_six rev imageType :
  schema_path rev (imageType ++ " Image URL") = true <->
  In (imageType ++ " Image URL") six_slots.
Proof.
  rewrite image_field_recognized. split.
  - intros [-> | [-> | ->]]; simpl; tauto.
  - simpl. intros H.
    repeat (destruct H as [H | H]); try contradiction; symmetry in H;
      try (exfalso; walk_string H imageType; fail);
      try (left; walk_string H imageType; reflexivity);
      try (right; left; walk_string H imageType; reflexivity);
      try (right; right; walk_string H imageType; reflexivity).
Qed.

Lemma desc_field_six rev descType :
  schema_path rev (descType ++ " Description") = true <->
  In (descType ++ " Description") six_slots.
Proof.
  rewrite desc_field_recognized. split.
  - intros [-> | [-> | ->]]; simpl; tauto.
  - simpl. intros H.
    repeat (destruct H as [H | H]); try contradiction; symmetry in H;
      try (exfalso; walk_string H descType; fail);
      try (left; walk_string H descType; reflexivity);
      try (right; left; walk_string H descType; reflexivity);
      try (right; right; walk_string H descType; reflexivity).
Qed.

Lemma assign_Status field value p : Status (assign field value p) = Status p.
Proof. unfold assign. repeat case_match; reflexivity. Qed.

Lemma assign_Created_At field value p :
  Created_At (assign field value p) = Created_At p.
Proof. unfold assign. repeat case_match; reflexivity. Qed.

Lemma assign_lookup field value p :
  In field six_slots -> lookup_field field (assign field value p) = Some value.
Proof.
  simpl. intros H.
  repeat (destruct H as [H | H]); try contradiction; subst; reflexivity.
Qed.

(** A slot write never empties a slot: a non-empty value goes in, the
    other slots keep theirs. *)
Lemma assign_check_mono rev field value p :
  value <> EmptyString ->
  Js.truthy (checkFulfillment rev p) = true ->
  Js.truthy (checkFulfillment rev (assign field value p)) = true.
Proof.
  intros Hv. apply truthy_Some_iff in Hv.
  destruct rev; [rewrite !check_Backend | rewrite !check_Part003];
    unfold six_slots_filled, assign;
    repeat case_match; cbn [Pre_Image_URL Wax_Image_URL Cast_Image_URL
      Final_Image_URL Wax_Description Cast_Description Final_Description];
    tauto.
Qed.

Lemma recompute_not_pending rev now p :
  Status p <> "Pending" -> recompute_status rev now p = p.
Proof.
  intros H. unfold recompute_status.
  apply String.eqb_neq in H. rewrite H, andb_false_r. reflexivity.
Qed.

Lemma recompute_pending rev now p :
  Status p = "Pending" ->
  recompute_status rev now p =
    if Js.truthy (checkFulfillment rev p)
    then set_Created_At now (set_Status "Fulfilled" p) else p.
Proof.
  intros H. unfold recompute_status. rewrite H. simpl.
  rewrite andb_true_r. reflexivity.
Qed.

Lemma recompute_check rev now p :
  checkFulfillment rev (recompute_status rev now p) = checkFulfillment rev p.
Proof.
  unfold recompute_status. case_match; [| reflexivity].
  rewrite check_set_Created_At, check_set_Status. reflexivity.
Qed.

Lemma publicImageUrl_nonempty rev cfg filename :
  publicImageUrl_of rev cfg filename <> EmptyString.
Proof.
  unfold publicImageUrl_of. destruct rev.
  - discriminate.
  - destruct (SERVER_BASE_URL cfg); discriminate.
Qed.

(** ** What a save request does to the store *)

Section SaveSteps.

Variable rev : Revision.
Variable rt : Runtime.
Variable cfg : Config.

(** A save request leaves the collection alone, or replaces the document
    it found by [write_slot] of it, for a recognized slot and a non-empty
    value. *)
Lemma handle_save_db now req w :
  db (snd (handle_save rev rt cfg now req w)) = db w \/
  exists key product field value,
    db w !! key = Some product /\ In field six_slots /\ value <> EmptyString /\
    db (snd (handle_save rev rt cfg now req w)) =
      <[key := write_slot rev now field value product]> (db w).
Proof.
  destruct req as [sku imageType imageDataUrl | sku descType description];
    simpl.
  - unfold update_product_image.
    destruct (Js.falsy sku || Js.falsy imageType || Js.falsy imageDataUrl);
      [left; reflexivity |].
    destruct (castNumber rt sku) as [key |]; [| left; reflexivity].
    destruct (db w !! key) as [product |] eqn:Hfind; [| left; reflexivity].
    destruct (negb (Js.startsWith "data:image/" imageDataUrl));
      [left; reflexivity |].
    destruct (Js.split "," imageDataUrl !! 1%nat) as [base64Data |];
      [| left; reflexivity].
    destruct (write_ok rt _); cbn [negb]; [| left; reflexivity].
    destruct (schema_path rev (imageType ++ " Image URL")) eqn:Hpath;
      simpl; [| left; reflexivity].
    right. eexists key, product, _, _.
    split; [exact Hfind |]. split; [apply (image_field_six rev), Hpath |].
    split; [apply publicImageUrl_nonempty | reflexivity].
  - destruct rev; [left; reflexivity |].
    unfold update_product_description.
    destruct (Js.falsy sku) eqn:Hs; [left; reflexivity |].
    destruct (Js.falsy descType) eqn:Ht; [left; reflexivity |].
    destruct (Js.falsy description) eqn:Hd; [left; reflexivity |].
    simpl.
    destruct (castNumber rt sku) as [key |]; [| left; reflexivity].
    destruct (db w !! key) as [product |] eqn:Hfind; [| left; reflexivity].
    destruct (schema_path Part003 (descType ++ " Description")) eqn:Hpath;
      simpl; [| left; reflexivity].
    right. eexists key, product, _, _.
    split; [exact Hfind |]. split; [apply (desc_field_six Part003), Hpath |].
    split; [apply falsy_false_iff, Hd | reflexivity].
Qed.

(** Seen from one key: the document under it is kept, or rewritten by
    [write_slot]. No document appears or disappears. *)
Lemma handle_save_at key now req w :
  db (snd (handle_save rev rt cfg now req w)) !! key = db w !! key \/
  exists product field value,
    db w !! key = Some product /\ In field six_slots /\ value <> EmptyString /\
    db (snd (handle_save rev rt cfg now req w)) !! key =
      Some (write_slot rev now field value product).
Proof.
  destruct (handle_save_db now req w) as [-> | (k & p & f & v & Hk & Hf & Hv & ->)];
    [left; reflexivity |].
  destruct (decide (k = key)) as [-> | Hne].
  - right. exists p, f, v. rewrite lookup_insert_eq. auto.
  - left. apply lookup_insert_ne, Hne.
Qed.

Lemma write_slot_fulfilled now field value p :
  Status p = "Fulfilled" ->
  write_slot rev now field value p = assign field value p.
Proof.
  intros H. unfold write_slot. apply recompute_not_pending.
  rewrite assign_Status, H. discriminate.
Qed.

(** Status and timestamp after a slot write on a pending document. *)
Lemma write_slot_pending now field value p :
  Status p = "Pending" ->
  write_slot rev now field value p =
    if Js.truthy (checkFulfillment rev (assign field value p))
    then set_Created_At now (set_Status "Fulfilled" (assign field value p))
    else assign field value p.
Proof.
  intros H. unfold write_slot. apply recompute_pending.
  rewrite assign_Status. exact H.
Qed.

Lemma write_slot_check now field value p :
  checkFulfillment rev (write_slot rev now field value p) =
  checkFulfillment rev (assign field value p).
Proof. apply recompute_check. Qed.

Lemma write_slot_inv now field value p :
  value <> EmptyString ->
  fulfillment_inv rev p -> fulfillment_inv rev (write_slot rev now field value p).
Proof.
  intros Hv [[Hs | Hs] Hiff]; unfold fulfillment_inv;
    rewrite write_slot_check.
  - rewrite (write_slot_pending _ _ _ _ Hs).
    destruct (Js.truthy (checkFulfillment rev (assign field value p))) eqn:E;
      simpl.
    + split; [right; reflexivity | tauto].
    + rewrite assign_Status, Hs. split; [left; reflexivity |].
      split; discriminate.
  - rewrite (write_slot_fulfilled _ _ _ _ Hs), assign_Status.
    split; [right; exact Hs |].
    split; [| intros _; exact Hs].
    intros _. apply assign_check_mono; [exact Hv | apply Hiff, Hs].
Qed.

Lemma handle_save_inv key now req w p :
  db w !! key = Some p -> fulfillment_inv rev p ->
  exists p', db (snd (handle_save rev rt cfg now req w)) !! key = Some p' /\
             fulfillment_inv rev p'.
Proof.
  intros Hk Hinv.
  destruct (handle_save_at key now req w) as [-> | (q & f & v & Hq & _ & Hv & ->)].
  - eauto.
  - rewrite Hk in Hq. injection Hq as <-.
    eexists. split; [reflexivity |]. apply write_slot_inv; assumption.
Qed.

End SaveSteps.

(** ** Claims *)

(** C1, as amended.  In the revision with the description endpoints
    ([Part003]) the equivalence "status is Fulfilled iff the six slots Wax /
    Cast / Final Image URL and Wax / Cast / Final Description are non-empty"
    -- the Pre-Image URL slot is not part of it -- is kept by every save
    request on a product whose status is Pending or Fulfilled, so a product
    with one of the six still empty after a save stays Pending.  In
    [src/backend/server.js] ([Backend]) the same holds with the Pre-Image
    URL slot added to the six. *)
Theorem fulfilled_iff_required_slots :
  (forall rt cfg now req w key p,
      db w !! key = Some p ->
      (Status p = "Pending" \/ Status p = "Fulfilled") ->
      (Status p = "Fulfilled" <-> six_slots_filled p) ->
      exists p',
        db (snd (handle_save Part003 rt cfg now req w)) !! key = Some p' /\
        (Status p' = "Pending" \/ Status p' = "Fulfilled") /\
        (Status p' = "Fulfilled" <-> six_slots_filled p') /\
        (~ six_slots_filled p' -> Status p' = "Pending")) /\
  (forall rt cfg now req w key p,
      db w !! key = Some p ->
      (Status p = "Pending" \/ Status p = "Fulfilled") ->
      (Status p = "Fulfilled" <->
       Js.truthy (Pre_Image_URL p) = true /\ six_slots_filled p) ->
      exists p',
        db (snd (handle_save Backend rt cfg now req w)) !! key = Some p' /\
        (Status p' = "Pending" \/ Status p' = "Fulfilled") /\
        (Status p' = "Fulfilled" <->
         Js.truthy (Pre_Image_URL p') = true /\ six_slots_filled p')).
Proof.
  split; intros rt cfg now req w key p Hk Hs Hiff.
  - destruct (handle_save_inv Part003 rt cfg key now req w p Hk)
      as (p' & Hk' & Hs' & Hiff').
    { split; [exact Hs |]. rewrite check_Part003. exact Hiff. }
    rewrite check_Part003 in Hiff'.
    exists p'. split; [exact Hk' |]. split; [exact Hs' |].
    split; [exact Hiff' |].
    intros Hn. destruct Hs' as [E | E]; [exact E | tauto].
  - destruct (handle_save_inv Backend rt cfg key now req w p Hk)
      as (p' & Hk' & Hs' & Hiff').
    { split; [exact Hs |]. rewrite check_Backend. exact Hiff. }
    rewrite check_Backend in Hiff'.
    exists p'. split; [exact Hk' |]. split; [exact Hs' | exact Hiff'].
Qed.

Lemma fulfilled_iff_required_slots_witness :
  (exists p',
      db (snd (handle_save Part003 Demo.runtime Demo.config 1
                 (SaveImage "1001" "Wax" Demo.png) Demo.world)) !! 1001
        = Some p' /\
      (Status p' = "Pending" \/ Status p' = "Fulfilled") /\
      (Status p' = "Fulfilled" <-> six_slots_filled p') /\
      (~ six_slots_filled p' -> Status p' = "Pending")) /\
  (exists p',
      db (snd (handle_save Backend Demo.runtime Demo.config 1
                 (SaveImage "1001" "Wax" Demo.png) Demo.world)) !! 1001
        = Some p' /\
      (Status p' = "Pending" \/ Status p' = "Fulfilled") /\
      (Status p' = "Fulfilled" <->
       Js.truthy (Pre_Image_URL p') = true /\ six_slots_filled p')).
Proof.
  split.
  - apply (proj1 fulfilled_iff_required_slots Demo.runtime Demo.config 1
             (SaveImage "1001" "Wax" Demo.png) Demo.world 1001
             (default_product 1001 0)).
    + reflexivity.
    + left. reflexivity.
    + split.
      * simpl. discriminate.
      * intros [H _]. simpl in H. discriminate.
  - apply (proj2 fulfilled_iff_required_slots Demo.runtime Demo.config 1
             (SaveImage "1001" "Wax" Demo.png) Demo.world 1001
             (default_product 1001 0)).
    + reflexivity.
    + left. reflexivity.
    + split.
      * simpl. discriminate.
      * intros [H _]. simpl in H. discriminate.
Defined.

(** C1, as stated, fails on [src/backend/server.js]: the save that fills the
    sixth slot leaves the product Pending, because its [checkFulfillment]
    also reads ['Pre-Image URL']. *)
Lemma six_filled_not_fulfilled_Backend :
  exists p',
    db (snd (handle_save Backend Demo.runtime Demo.config 7
               (SaveImage "1001" "Final" Demo.png)
               (mkWorld {[ 1001 := five_of_six ]} ∅))) !! 1001 = Some p' /\
    six_slots_filled p' /\
    ~ (Status p' = "Fulfilled" <-> six_slots_filled p').
Proof.
  eexists. split; [reflexivity |].
  assert (Hsix : six_slots_filled
                   (write_slot Backend 7 "Final Image URL"
                      "http://localhost:5000/images/1001_Final.png"
                      five_of_six)).
  { repeat split. }
  split; [exact Hsix |].
  intros [_ H]. specialize (H Hsix). discriminate H.
Qed.

(** C3.  The status update is idempotent: a second application, whatever
    the clock shows, returns the record the first one returned; and on a
    record that is already Fulfilled it changes nothing, the timestamp
    included. *)
Theorem recompute_status_idempotent rev now1 now2 p :
  recompute_status rev now2 (recompute_status rev now1 p)
    = recompute_status rev now1 p /\
  recompute_status rev now1 (set_Status "Fulfilled" p)
    = set_Status "Fulfilled" p.
Proof.
  split.
  - destruct (Js.truthy (checkFulfillment rev p)
              && String.eqb (Status p) "Pending") eqn:E.
    + assert (H : recompute_status rev now1 p
                  = set_Created_At now1 (set_Status "Fulfilled" p))
        by (unfold recompute_status; rewrite E; reflexivity).
      rewrite H. apply recompute_not_pending. simpl. discriminate.
    + assert (H : forall now, recompute_status rev now p = p)
        by (intros now; unfold recompute_status; rewrite E; reflexivity).
      rewrite !H. reflexivity.
  - apply recompute_not_pending. simpl. discriminate.
Qed.

(** ** Status along a sequence of save requests *)

Section Monotonic.

Variable rev : Revision.
Variable rt : Runtime.
Variable cfg : Config.
Variable key : Z.

Lemma step_keeps_fulfilled now req w :
  status_of key w = Some "Fulfilled" ->
  status_of key (snd (handle_save rev rt cfg now req w)) = Some "Fulfilled".
Proof.
  unfold status_of. intros H.
  destruct (handle_save_at rev rt cfg key now req w)
    as [-> | (p & f & v & Hp & _ & _ & ->)]; [exact H |].
  rewrite Hp in H. simpl in H. injection H as H. simpl.
  rewrite (write_slot_fulfilled _ _ _ _ _ H), assign_Status, H.
  reflexivity.
Qed.

Lemma run_keeps_fulfilled reqs w :
  status_of key w = Some "Fulfilled" ->
  status_of key (run rev rt cfg reqs w) = Some "Fulfilled".
Proof.
  revert w. induction reqs as [| [now req] rest IH]; intros w H; simpl.
  - exact H.
  - apply IH, step_keeps_fulfilled, H.
Qed.

Lemma fires_true now req w :
  fires rev rt cfg key now req w = true <->
  status_of key w = Some "Pending" /\
  status_of key (snd (handle_save rev rt cfg now req w)) = Some "Fulfilled".
Proof.
  unfold fires. rewrite andb_true_iff, !bool_decide_eq_true. reflexivity.
Qed.

Lemma no_transition_after_fulfilled reqs w :
  status_of key w = Some "Fulfilled" ->
  transitions rev rt cfg key reqs w = 0%nat.
Proof.
  revert w. induction reqs as [| [now req] rest IH]; intros w H; simpl.
  - reflexivity.
  - rewrite (IH _ (step_keeps_fulfilled now req w H)).
    destruct (fires rev rt cfg key now req w) eqn:E; [| reflexivity].
    apply fires_true in E. destruct E as [E _]. congruence.
Qed.

Lemma transitions_at_most_once reqs w :
  (transitions rev rt cfg key reqs w <= 1)%nat.
Proof.
  revert w. induction reqs as [| [now req] rest IH]; intros w; simpl.
  - lia.
  - destruct (fires rev rt cfg key now req w) eqn:E.
    + apply fires_true in E. destruct E as [_ E].
      rewrite (no_transition_after_fulfilled rest _ E). lia.
    + specialize (IH (snd (handle_save rev rt cfg now req w))). lia.
Qed.

(** The edge is taken by a slot write on a pending document that makes
    the check succeed; it stamps the clock of that request. *)
Lemma fires_completes now req w :
  fires rev rt cfg key now req w = true ->
  exists p p',
    db w !! key = Some p /\ Status p = "Pending" /\
    db (snd (handle_save rev rt cfg now req w)) !! key = Some p' /\
    Status p' = "Fulfilled" /\ Created_At p' = now /\
    Js.truthy (checkFulfillment rev p') = true /\
    (fulfillment_inv rev p -> Js.truthy (checkFulfillment rev p) = false).
Proof.
  intros E. apply fires_true in E. destruct E as [Hb Ha].
  unfold status_of in Hb, Ha.
  destruct (db w !! key) as [p |] eqn:Hp; [| discriminate Hb].
  simpl in Hb. injection Hb as Hb.
  destruct (handle_save_at rev rt cfg key now req w)
    as [Hsame | (q & f & v & Hq & _ & _ & Hw)].
  - rewrite Hsame, Hp in Ha. simpl in Ha. congruence.
  - rewrite Hp in Hq. injection Hq as <-.
    rewrite Hw in Ha. simpl in Ha. injection Ha as Ha.
    exists p, (write_slot rev now f v p).
    split; [reflexivity |]. split; [exact Hb |]. split; [exact Hw |].
    split; [exact Ha |].
    rewrite write_slot_check.
    rewrite (write_slot_pending _ _ _ _ _ Hb) in Ha |- *.
    destruct (Js.truthy (checkFulfillment rev (assign f v p))) eqn:C.
    + split; [reflexivity |]. split; [reflexivity |].
      intros [_ Hiff].
      destruct (Js.truthy (checkFulfillment rev p)); [| reflexivity].
      rewrite Hb in Hiff. destruct Hiff as [_ Hiff].
      discriminate (Hiff eq_refl).
    + rewrite assign_Status, Hb in Ha. discriminate Ha.
Qed.

(** A request that does not take the edge leaves the timestamp alone. *)
Lemma no_fire_no_stamp now req w :
  fires rev rt cfg key now req w = false ->
  Created_At <$> db (snd (handle_save rev rt cfg now req w)) !! key
    = Created_At <$> db w !! key.
Proof.
  intros E.
  destruct (handle_save_at rev rt cfg key now req w)
    as [-> | (p & f & v & Hp & _ & _ & Hw)]; [reflexivity |].
  rewrite Hw, Hp. simpl. f_equal.
  destruct (decide (Status p = "Pending")) as [Hs | Hs].
  - rewrite (write_slot_pending _ _ _ _ _ Hs).
    destruct (Js.truthy (checkFulfillment rev (assign f v p))) eqn:C.
    + exfalso.
      assert (F : fires rev rt cfg key now req w = true).
      { apply fires_true. unfold status_of. rewrite Hw, Hp. simpl.
        rewrite Hs, (write_slot_pending _ _ _ _ _ Hs), C. split; reflexivity. }
      congruence.
    + apply assign_Created_At.
  - unfold write_slot. rewrite recompute_not_pending.
    + apply assign_Created_At.
    + rewrite assign_Status. exact Hs.
Qed.

End Monotonic.

(** C4.  Along every sequence of image-save and description-save requests
    the status of a product is monotonic: once Fulfilled it stays Fulfilled;
    the Pending -> Fulfilled edge is taken at most once; it is taken only by
    a write on a document whose status is Pending and after which the
    fulfillment check holds (on a document that satisfied the fulfillment
    invariant the check did not hold before that write), and only then is
    the timestamp re-stamped. *)
Theorem status_monotonic rev rt cfg key reqs w :
  (status_of key w = Some "Fulfilled" ->
   status_of key (run rev rt cfg reqs w) = Some "Fulfilled") /\
  (transitions rev rt cfg key reqs w <= 1)%nat /\
  (forall now req w0,
      fires rev rt cfg key now req w0 = true ->
      exists p p',
        db w0 !! key = Some p /\ Status p = "Pending" /\
        db (snd (handle_save rev rt cfg now req w0)) !! key = Some p' /\
        Status p' = "Fulfilled" /\ Created_At p' = now /\
        Js.truthy (checkFulfillment rev p') = true /\
        (fulfillment_inv rev p ->
         Js.truthy (checkFulfillment rev p) = false)) /\
  (forall now req w0,
      fires rev rt cfg key now req w0 = false ->
      Created_At <$> db (snd (handle_save rev rt cfg now req w0)) !! key
        = Created_At <$> db w0 !! key).
Proof.
  split; [apply run_keeps_fulfilled |].
  split; [apply transitions_at_most_once |].
  split; [apply fires_completes | apply no_fire_no_stamp].
Qed.

(** ** The model fallback list *)

Section Fallback.

Variable rt : Runtime.
Variable cfg : Config.
Variable post : Post.
Variable fs : gmap string Buffer.
Variable prompt : string.
Variable referenceImagePath : option string.

Local Abbreviation succeeds :=
  (attempt_succeeds rt cfg post fs prompt referenceImagePath).

Lemma try_model_tried model :
  tried (snd (try_model rt cfg post fs prompt referenceImagePath model))
    = [model].
Proof.
  unfold try_model. destruct (read_reference rt fs referenceImagePath); simpl;
    [| reflexivity].
  repeat case_match; reflexivity.
Qed.

Lemma try_model_result model :
  match fst (try_model rt cfg post fs prompt referenceImagePath model) with
  | Some g => succeeds model = true /\ modelUsed g = model
  | None => succeeds model = false
  end.
Proof.
  unfold try_model, attempt_succeeds.
  destruct (read_reference rt fs referenceImagePath) as [ref |]; simpl;
    [| reflexivity].
  destruct (post model (GOOGLE_AI_API_KEY cfg) prompt ref)
    as [msg | [[| prediction preds] |]]; simpl; try reflexivity.
  destruct (Js.truthy (bytesBase64Encoded prediction)); simpl; auto.
Qed.

Lemma try_models_spec models :
  match try_models rt cfg post fs prompt referenceImagePath models with
  | (Some g, log) =>
      exists pre rest,
        models = (pre ++ modelUsed g :: rest)%list /\
        Forall (fun m => succeeds m = false) pre /\
        succeeds (modelUsed g) = true /\
        tried log = (pre ++ [modelUsed g])%list
  | (None, log) =>
      Forall (fun m => succeeds m = false) models /\
      tried log = models
  end.
Proof.
  induction models as [| model rest IH]; simpl.
  - split; [constructor | reflexivity].
  - pose proof (try_model_result model) as Hr.
    pose proof (try_model_tried model) as Ht.
    destruct (try_model rt cfg post fs prompt referenceImagePath model)
      as [[g |] log]; simpl in Hr, Ht.
    + destruct Hr as [Hok Hm]. exists [], rest. simpl.
      rewrite Hm. repeat split; auto.
    + destruct (try_models rt cfg post fs prompt referenceImagePath rest)
        as [[g |] log'].
      * destruct IH as (pre & rest' & -> & Hpre & Hok & Hlog).
        exists (model :: pre), rest'. simpl.
        split; [reflexivity |]. split; [constructor; assumption |].
        split; [exact Hok |].
        unfold tried in *. rewrite omap_app, Ht, Hlog. reflexivity.
      * destruct IH as [Hall Hlog].
        split; [constructor; assumption |].
        unfold tried in *. rewrite omap_app, Ht, Hlog. reflexivity.
Qed.

End Fallback.

(** C5, as amended.  With an API key configured,
    [generateImageWithGoogleAI] walks [imagenModels] in order and returns
    the image of the first model whose response has a payload in its first
    prediction, having tried that model and the failed ones before it and
    none after it; it fails with "All configured Imagen models failed." only
    when it has tried every model of the list and every attempt failed. *)
Theorem first_successful_model rt cfg post fs prompt referenceImagePath :
  let ok := attempt_succeeds rt cfg post fs prompt referenceImagePath in
  let r := generateImageWithGoogleAI rt cfg post fs prompt referenceImagePath in
  (Js.falsy (GOOGLE_AI_API_KEY cfg) = false ->
   match r with
   | (inr g, log) =>
       exists pre rest,
         imagenModels = (pre ++ modelUsed g :: rest)%list /\
         Forall (fun m => ok m = false) pre /\
         ok (modelUsed g) = true /\
         tried log = (pre ++ [modelUsed g])%list
   | (inl message, log) =>
       message = "Image generation failed: All configured Imagen models failed."
       /\ Forall (fun m => ok m = false) imagenModels
       /\ tried log = imagenModels
   end) /\
  (fst r = inl "Image generation failed: All configured Imagen models failed."
   -> Forall (fun m => ok m = false) imagenModels
      /\ tried (snd r) = imagenModels).
Proof.
  intros ok r.
  assert (Hmain : Js.falsy (GOOGLE_AI_API_KEY cfg) = false ->
                  match r with
                  | (inr g, log) =>
                      exists pre rest,
                        imagenModels = (pre ++ modelUsed g :: rest)%list /\
                        Forall (fun m => ok m = false) pre /\
                        ok (modelUsed g) = true /\
                        tried log = (pre ++ [modelUsed g])%list
                  | (inl message, log) =>
                      message = "Image generation failed: All configured Imagen models failed."
                      /\ Forall (fun m => ok m = false) imagenModels
                      /\ tried log = imagenModels
                  end).
  { intros Hkey. subst r. unfold generateImageWithGoogleAI. rewrite Hkey.
    pose proof (try_models_spec rt cfg post fs prompt referenceImagePath
                  imagenModels) as H.
    destruct (try_models rt cfg post fs prompt referenceImagePath imagenModels)
      as [[g |] log].
    - exact H.
    - destruct H as [Hall Hlog]. split; [reflexivity |]. split; assumption. }
  split; [exact Hmain |].
  destruct (Js.falsy (GOOGLE_AI_API_KEY cfg)) eqn:Hkey.
  - subst r. unfold generateImageWithGoogleAI. rewrite Hkey. simpl.
    intros H. discriminate H.
  - specialize (Hmain eq_refl). destruct r as [[message | g] log]; simpl.
    + intros _. tauto.
    + intros H. discriminate H.
Qed.

Lemma first_successful_model_witness :
  (let ok := attempt_succeeds Demo.runtime Demo.config Demo.all_succeed ∅
               "gold ring" None in
   match generateImageWithGoogleAI Demo.runtime Demo.config Demo.all_succeed
           ∅ "gold ring" None with
   | (inr g, log) =>
       exists pre rest,
         imagenModels = (pre ++ modelUsed g :: rest)%list /\
         Forall (fun m => ok m = false) pre /\
         ok (modelUsed g) = true /\
         tried log = (pre ++ [modelUsed g])%list
   | (inl message, log) =>
       message = "Image generation failed: All configured Imagen models failed."
       /\ Forall (fun m => ok m = false) imagenModels
       /\ tried log = imagenModels
   end) /\
  (let ok := attempt_succeeds Demo.runtime Demo.config Demo.all_fail ∅
               "gold ring" None in
   Forall (fun m => ok m = false) imagenModels /\
   tried (snd (generateImageWithGoogleAI Demo.runtime Demo.config
                 Demo.all_fail ∅ "gold ring" None)) = imagenModels).
Proof.
  split.
  - apply (proj1 (first_successful_model Demo.runtime Demo.config
                    Demo.all_succeed ∅ "gold ring" None)).
    reflexivity.
  - apply (proj2 (first_successful_model Demo.runtime Demo.config
                    Demo.all_fail ∅ "gold ring" None)).
    reflexivity.
Defined.

(** C5, as stated, fails: a response whose image is in its second
    prediction is treated as a failed attempt, and the next model's image is
    returned; and without an API key nothing is tried even when every model
    would answer with an image. *)
Lemma second_prediction_not_read :
  contains_payload
    (Demo.image_in_second_prediction "imagen-4.0-generate-preview-06-06"
       "test-key" "gold ring" None) = true /\
  (exists g log,
      generateImageWithGoogleAI Demo.runtime Demo.config
        Demo.image_in_second_prediction ∅ "gold ring" None = (inr g, log) /\
      modelUsed g = "imagen-3.0-generate-002" /\
      tried log = imagenModels) /\
  generateImageWithGoogleAI Demo.runtime Demo.no_key Demo.all_succeed ∅
    "gold ring" None
    = (inl "Image generation failed: Google AI API key not configured", []).
Proof.
  split; [reflexivity |]. split; [| reflexivity].
  eexists _, _. split; [reflexivity |]. split; reflexivity.
Qed.

(** Without an API key the gateway throws before the loop: no model is
    tried, and the error is not the exhaustion error. *)
Lemma generate_without_key rt cfg post fs prompt referenceImagePath :
  Js.falsy (GOOGLE_AI_API_KEY cfg) = true ->
  generateImageWithGoogleAI rt cfg post fs prompt referenceImagePath
    = (inl "Image generation failed: Google AI API key not configured", []).
Proof. intros H. unfold generateImageWithGoogleAI. rewrite H. reflexivity. Qed.

(** C6.  A generate-image request with an empty prompt is answered 400
    with an error payload; the gateway is not entered, so no model is tried
    and no outbound call is made, and the world is unchanged. *)
Theorem empty_prompt_rejected rt cfg post prompt file w :
  Js.falsy prompt = true ->
  let '(res, w', log) := generate_image rt cfg post prompt file w in
  res = mkResponse 400 (JsonError "Prompt is required") /\
  w' = w /\ tried log = [] /\ posted log = [].
Proof.
  intros H. unfold generate_image. rewrite H. repeat split.
Qed.

Lemma empty_prompt_rejected_witness :
  let '(res, w', log) :=
    generate_image Demo.runtime Demo.config Demo.all_succeed EmptyString None
      Demo.world in
  res = mkResponse 400 (JsonError "Prompt is required") /\
  w' = Demo.world /\ tried log = [] /\ posted log = [].
Proof.
  apply (empty_prompt_rejected Demo.runtime Demo.config Demo.all_succeed
           EmptyString None Demo.world).
  reflexivity.
Defined.

(** The upload is unlinked on the success path only. *)
Lemma generate_image_success_unlinks rt cfg post prompt path w res w' log g :
  generate_image rt cfg post prompt (Some path) w = (res, w', log) ->
  path <> EmptyString ->
  body res = ImageBody ("image/" ++ imageFormat g) (modelUsed g) (imageBuffer g) ->
  files w' !! path = None.
Proof.
  unfold generate_image. intros H Hp Hb.
  apply truthy_Some_iff in Hp. cbv zeta in H. rewrite Hp in H.
  destruct (Js.falsy prompt); [injection H as <- <- <-; discriminate Hb |].
  destruct (generateImageWithGoogleAI rt cfg post (files w) prompt (Some path))
    as [[message | g'] log0].
  - injection H as <- <- <-. discriminate Hb.
  - injection H as <- <- <-. cbn [andb default].
    case_bool_decide as Hex; simpl.
    + apply lookup_delete_eq.
    + destruct (files w !! path) eqn:E; [| reflexivity].
      exfalso. apply Hex. eauto.
Qed.

(** Any answer other than the image itself leaves the world as it was:
    neither the 400 nor the 500 branch unlinks the upload. *)
Lemma generate_image_error_keeps_files rt cfg post prompt file w :
  let '(res, w', _) := generate_image rt cfg post prompt file w in
  status res <> 200 -> w' = w.
Proof.
  unfold generate_image.
  destruct (Js.falsy prompt); [reflexivity |].
  destruct (generateImageWithGoogleAI rt cfg post (files w) prompt file)
    as [[message | g] log]; [reflexivity |].
  simpl. intros H. contradiction H. reflexivity.
Qed.

(** C2 fails on the code.  A request with a prompt and an uploaded
    reference image, all of whose model calls are rejected, is answered 500
    and the upload is still on disk afterwards, although the same request is
    cleaned up when generation succeeds. *)
Theorem upload_kept_after_failed_generation :
  let path := "uploads/1700000000000-ring.png" in
  let w := mkWorld ∅ {[ path := [Byte.x89; Byte.x50] ]} in
  let failed :=
    generate_image Demo.runtime Demo.config Demo.all_fail "gold ring"
      (Some path) w in
  let succeeded :=
    generate_image Demo.runtime Demo.config Demo.all_succeed "gold ring"
      (Some path) w in
  status (fst (fst failed)) = 500 /\
  posted (snd failed) = imagenModels /\
  files (snd (fst failed)) !! path = Some [Byte.x89; Byte.x50] /\
  status (fst (fst succeeded)) = 200 /\
  files (snd (fst succeeded)) !! path = None.
Proof.
  vm_compute. repeat split.
Qed.

(** ** The save pipeline, stage by stage *)

Lemma startsWith_nonempty url :
  Js.startsWith "data:image/" url = true -> Js.falsy url = false.
Proof. destruct url; [discriminate | reflexivity]. Qed.

Lemma lookup_field_recompute rev now field p :
  lookup_field field (recompute_status rev now p) = lookup_field field p.
Proof. unfold recompute_status. case_match; reflexivity. Qed.

Section Pipeline.

Variable rev : Revision.
Variable rt : Runtime.
Variable cfg : Config.

(** A 200 answer of the image endpoint: every check passed, the file was
    written under the name built from the request, and the document found
    was replaced by its [write_slot]. *)
Lemma update_product_image_200 now sku imageType imageDataUrl w :
  status (fst (update_product_image rev rt cfg now sku imageType
                 imageDataUrl w)) = 200 ->
  exists key product payload,
    castNumber rt sku = Some key /\ db w !! key = Some product /\
    Js.split "," imageDataUrl !! 1%nat = Some payload /\
    In (imageType ++ " Image URL") six_slots /\
    let filename := filename_of sku imageType (extension_of imageDataUrl) in
    let product' :=
      write_slot rev now (imageType ++ " Image URL")
        (publicImageUrl_of rev cfg filename) product in
    update_product_image rev rt cfg now sku imageType imageDataUrl w =
      (mkResponse 200
         (JsonSaved ("Image for SKU " ++ sku ++ " saved as " ++ imageType
                     ++ " successfully.") product'),
       mkWorld (<[key := product']> (db w))
         (<[path_join rt (publicImagesDir cfg) filename
            := base64_decode rt payload]> (files w))).
Proof.
  unfold update_product_image.
  destruct (Js.falsy sku || Js.falsy imageType || Js.falsy imageDataUrl);
    [discriminate |].
  destruct (castNumber rt sku) as [key |] eqn:Hkey; [| discriminate].
  destruct (db w !! key) as [product |] eqn:Hfind; [| discriminate].
  destruct (negb (Js.startsWith "data:image/" imageDataUrl)); [discriminate |].
  destruct (Js.split "," imageDataUrl !! 1%nat) as [payload |] eqn:Hsplit;
    [| discriminate].
  destruct (write_ok rt _); cbn [negb]; [| discriminate].
  destruct (schema_path rev (imageType ++ " Image URL")) eqn:Hpath;
    simpl; [| discriminate].
  intros _. exists key, product, payload.
  split; [reflexivity |]. split; [exact Hfind |]. split; [reflexivity |].
  split; [apply (image_field_six rev), Hpath | reflexivity].
Qed.

Lemma update_product_image_unknown now sku imageType imageDataUrl w :
  find_product rt sku w = None ->
  snd (update_product_image rev rt cfg now sku imageType imageDataUrl w) = w.
Proof.
  unfold find_product, update_product_image. intros H.
  destruct (Js.falsy sku || Js.falsy imageType || Js.falsy imageDataUrl);
    [reflexivity |].
  destruct (castNumber rt sku) as [key |]; [| reflexivity].
  rewrite H. reflexivity.
Qed.

End Pipeline.

(** C7, as amended.  An update-product-image request whose sku identifies
    no existing Product leaves the world unchanged -- no record is created;
    and when its three fields are non-empty and the sku casts to a number,
    the answer is 404. *)
Theorem unknown_sku_not_found rev rt cfg now sku imageType imageDataUrl w :
  find_product rt sku w = None ->
  snd (update_product_image rev rt cfg now sku imageType imageDataUrl w) = w /\
  (Js.falsy sku = false -> Js.falsy imageType = false ->
   Js.falsy imageDataUrl = false -> is_Some (castNumber rt sku) ->
   fst (update_product_image rev rt cfg now sku imageType imageDataUrl w)
     = mkResponse 404 (JsonError ("Product with SKU " ++ sku ++ " not found."))).
Proof.
  intros H. split; [apply update_product_image_unknown, H |].
  intros Hs Ht Hu [key Hk]. unfold update_product_image.
  rewrite Hs, Ht, Hu. simpl. unfold find_product in H. rewrite Hk in H |- *.
  rewrite H. reflexivity.
Qed.

Lemma unknown_sku_not_found_witness :
  snd (update_product_image Part003 Demo.runtime Demo.config 1 "9999" "Wax"
         Demo.png Demo.world) = Demo.world /\
  fst (update_product_image Part003 Demo.runtime Demo.config 1 "9999" "Wax"
         Demo.png Demo.world)
    = mkResponse 404 (JsonError "Product with SKU 9999 not found.").
Proof.
  destruct (unknown_sku_not_found Part003 Demo.runtime Demo.config 1 "9999"
              "Wax" Demo.png Demo.world eq_refl) as [H1 H2].
  split; [exact H1 |].
  apply H2; try reflexivity. eexists. reflexivity.
Defined.

(** C7, as stated, fails: the presence check comes before the lookup, so a
    request for an unknown sku that lacks its [imageType] is answered 400. *)
Lemma unknown_sku_missing_type_400 :
  find_product Demo.runtime "9999" Demo.world = None /\
  status (fst (update_product_image Part003 Demo.runtime Demo.config 1
                 "9999" EmptyString Demo.png Demo.world)) = 400 /\
  status (fst (update_product_image Part003 Demo.runtime Demo.config 1
                 "9999" EmptyString Demo.png Demo.world)) <> 404.
Proof. repeat split. discriminate. Qed.

Lemma image_field_rejected rev imageType :
  ~ In (imageType ++ " Image URL") six_slots ->
  schema_path rev (imageType ++ " Image URL") = false.
Proof.
  intros H. destruct (schema_path rev (imageType ++ " Image URL")) eqn:E;
    [| reflexivity].
  exfalso. apply H, (image_field_six rev), E.
Qed.

Lemma desc_field_rejected rev descType :
  ~ In (descType ++ " Description") six_slots ->
  schema_path rev (descType ++ " Description") = false.
Proof.
  intros H. destruct (schema_path rev (descType ++ " Description")) eqn:E;
    [| reflexivity].
  exfalso. apply H, (desc_field_six rev), E.
Qed.

(** C8, as amended.  On an existing Product, a save whose type maps to a
    slot key outside the six recognized names never changes the record.  A
    description save is answered 400 by the revision that has the
    description route ([Backend] has none and answers 404); an image save is
    answered 400 whenever its data URL has a part after a comma to decode
    and the file write succeeds.  When the earlier checks pass, the answer
    is the invalid-type error. *)
Theorem invalid_slot_rejected rev rt cfg now sku type value w p :
  find_product rt sku w = Some p ->
  (~ In (type ++ " Image URL") six_slots ->
   let r := handle_save rev rt cfg now (SaveImage sku type value) w in
   let imagePath :=
     path_join rt (publicImagesDir cfg)
       (filename_of sku type (extension_of value)) in
   db (snd r) = db w /\
   (is_Some (Js.split "," value !! 1%nat) -> write_ok rt imagePath = true ->
    status (fst r) = 400) /\
   (Js.falsy sku = false -> Js.falsy type = false ->
    Js.startsWith "data:image/" value = true ->
    is_Some (Js.split "," value !! 1%nat) -> write_ok rt imagePath = true ->
    fst r = mkResponse 400 (JsonError ("Invalid imageType: " ++ type)))) /\
  (~ In (type ++ " Description") six_slots ->
   let r := handle_save Part003 rt cfg now (SaveDescription sku type value) w in
   snd r = w /\ status (fst r) = 400 /\
   (Js.falsy sku = false -> Js.falsy type = false ->
    Js.falsy value = false ->
    fst r = mkResponse 400 (JsonError ("Invalid descType: " ++ type)))) /\
  handle_save Backend rt cfg now (SaveDescription sku type value) w
    = (mkResponse 404 NoRoute, w).
Proof.
  unfold find_product. intros Hfind.
  destruct (castNumber rt sku) as [key |] eqn:Hkey; [| discriminate Hfind].
  split; [| split; [| reflexivity]]; intros Hslot; cbv zeta; cbn [handle_save].
  - apply (image_field_rejected rev) in Hslot.
    unfold update_product_image. rewrite Hkey, Hfind, Hslot. cbn [negb].
    split; [| split].
    + repeat case_match; reflexivity.
    + intros [payload Hp] Hw. rewrite Hp, Hw. cbn [negb].
      repeat case_match; reflexivity.
    + intros Hs Ht Hpre [payload Hp] Hw.
      rewrite Hs, Ht, (startsWith_nonempty _ Hpre), Hpre, Hp, Hw. reflexivity.
  - apply (desc_field_rejected Part003) in Hslot.
    unfold update_product_description. rewrite Hkey, Hfind, Hslot. cbn [negb].
    split; [| split].
    + repeat case_match; reflexivity.
    + repeat case_match; reflexivity.
    + intros Hs Ht Hv. rewrite Hs, Ht, Hv. reflexivity.
Qed.

Lemma invalid_slot_rejected_witness :
  (let r := handle_save Backend Demo.runtime Demo.config 1
              (SaveImage "1001" "Bogus" Demo.png) Demo.world in
   db (snd r) = db Demo.world /\
   fst r = mkResponse 400 (JsonError "Invalid imageType: Bogus")) /\
  (let r := handle_save Part003 Demo.runtime Demo.config 1
              (SaveDescription "1001" "Bogus" "some text") Demo.world in
   snd r = Demo.world /\
   fst r = mkResponse 400 (JsonError "Invalid descType: Bogus")).
Proof.
  assert (Himg : ~ In ("Bogus" ++ " Image URL") six_slots).
  { simpl. intros H. repeat (destruct H as [H | H]; [discriminate H |]).
    exact H. }
  assert (Hdesc : ~ In ("Bogus" ++ " Description") six_slots).
  { simpl. intros H. repeat (destruct H as [H | H]; [discriminate H |]).
    exact H. }
  destruct (invalid_slot_rejected Backend Demo.runtime Demo.config 1 "1001"
              "Bogus" Demo.png Demo.world (default_product 1001 0) eq_refl)
    as (Hi & _ & _).
  destruct (invalid_slot_rejected Part003 Demo.runtime Demo.config 1 "1001"
              "Bogus" "some text" Demo.world (default_product 1001 0) eq_refl)
    as (_ & Hd & _).
  split.
  - destruct (Hi Himg) as (H1 & _ & H3). split; [exact H1 |].
    apply H3; try reflexivity; eexists; reflexivity.
  - destruct (Hd Hdesc) as (H1 & _ & H3). split; [exact H1 |].
    apply H3; reflexivity.
Defined.

(** C8, as stated, fails in three ways.  An image save on an existing
    Product with an unrecognized type is answered 500 when its data URL has
    the prefix but no comma, since [Buffer.from(undefined, 'base64')]
    throws, and when the file name built from the type lies in a directory
    that does not exist, since [fs.writeFileSync] throws; both happen
    before the slot key is looked at.  And [src/backend/server.js] has no
    description route, so a description save is answered 404 there. *)
Lemma invalid_slot_without_payload_500 :
  find_product Demo.runtime "1001" Demo.world = Some (default_product 1001 0) /\
  ~ In ("Bogus" ++ " Image URL") six_slots /\
  fst (update_product_image Part003 Demo.runtime Demo.config 1 "1001" "Bogus"
         "data:image/png" Demo.world)
    = mkResponse 500 (JsonThrown "Failed to save image: " TypeError) /\
  ~ In ("a/b" ++ " Image URL") six_slots /\
  fst (update_product_image Part003 Demo.runtime Demo.config 1 "1001" "a/b"
         Demo.png Demo.world)
    = mkResponse 500 (JsonThrown "Failed to save image: " WriteError) /\
  ~ In ("Bogus" ++ " Description") six_slots /\
  fst (handle_save Backend Demo.runtime Demo.config 1
         (SaveDescription "1001" "Bogus" "some text") Demo.world)
    = mkResponse 404 NoRoute.
Proof.
  assert (Hnot : forall f, existsb (String.eqb f) six_slots = false ->
                           ~ In f six_slots).
  { intros f E Hin.
    assert (Ht : existsb (String.eqb f) six_slots = true).
    { apply existsb_exists. exists f.
      split; [exact Hin | apply String.eqb_refl]. }
    rewrite E in Ht. discriminate Ht. }
  split; [reflexivity |]. split; [exact (Hnot ("Bogus" ++ " Image URL") eq_refl) |].
  split; [reflexivity |]. split; [exact (Hnot ("a/b" ++ " Image URL") eq_refl) |].
  split; [reflexivity |]. split; [exact (Hnot ("Bogus" ++ " Description") eq_refl) |].
  reflexivity.
Qed.

(** C9, as amended.  The file name is [filename_of sku imageType
    extension]: two successful saves of the same (sku, imageType) whose data
    URLs declare the same format write the same file, which then holds the
    second image, and put the same URL in the slot. *)
Theorem same_slot_same_file rev rt cfg now1 now2 sku imageType url1 url2 w :
  let r1 := update_product_image rev rt cfg now1 sku imageType url1 w in
  let r2 := update_product_image rev rt cfg now2 sku imageType url2 (snd r1) in
  status (fst r1) = 200 -> status (fst r2) = 200 ->
  extension_of url1 = extension_of url2 ->
  let filename := filename_of sku imageType (extension_of url1) in
  let path := path_join rt (publicImagesDir cfg) filename in
  let url := publicImageUrl_of rev cfg filename in
  exists payload1 payload2 message p1 p2,
    Js.split "," url1 !! 1%nat = Some payload1 /\
    Js.split "," url2 !! 1%nat = Some payload2 /\
    files (snd r1) = <[path := base64_decode rt payload1]> (files w) /\
    files (snd r2) = <[path := base64_decode rt payload2]> (files w) /\
    fst r1 = mkResponse 200 (JsonSaved message p1) /\
    fst r2 = mkResponse 200 (JsonSaved message p2) /\
    lookup_field (imageType ++ " Image URL") p1 = Some url /\
    lookup_field (imageType ++ " Image URL") p2 = Some url.
Proof.
  intros r1 r2 H1 H2 Hext filename path url.
  destruct (update_product_image_200 rev rt cfg now1 sku imageType url1 w H1)
    as (k1 & q1 & payload1 & _ & _ & Hs1 & Hslot & E1).
  destruct (update_product_image_200 rev rt cfg now2 sku imageType url2
              (snd r1) H2)
    as (k2 & q2 & payload2 & _ & _ & Hs2 & _ & E2).
  cbv zeta in E1, E2. rewrite <- Hext in E2.
  fold filename in E1, E2. fold path in E1, E2. fold url in E1, E2.
  subst r2. subst r1. rewrite E2. rewrite E1. rewrite E1 in E2. simpl.
  eexists payload1, payload2, _, _, _.
  split; [exact Hs1 |]. split; [exact Hs2 |]. split; [reflexivity |].
  split; [apply insert_insert_eq |].
  split; [reflexivity |]. split; [reflexivity |].
  unfold write_slot. rewrite !lookup_field_recompute.
  split; apply assign_lookup, Hslot.
Qed.

Lemma same_slot_same_file_witness :
  let r1 := update_product_image Part003 Demo.runtime Demo.config 1 "1001"
              "Wax" Demo.png Demo.world in
  let r2 := update_product_image Part003 Demo.runtime Demo.config 2 "1001"
              "Wax" "data:image/png;base64,CCCC" (snd r1) in
  exists payload1 payload2 message p1 p2,
    Js.split "," Demo.png !! 1%nat = Some payload1 /\
    Js.split "," "data:image/png;base64,CCCC" !! 1%nat = Some payload2 /\
    files (snd r1)
      = <[ "public/images/1001_Wax.png" := list_byte_of_string payload1 ]>
          (files Demo.world) /\
    files (snd r2)
      = <[ "public/images/1001_Wax.png" := list_byte_of_string payload2 ]>
          (files Demo.world) /\
    fst r1 = mkResponse 200 (JsonSaved message p1) /\
    fst r2 = mkResponse 200 (JsonSaved message p2) /\
    lookup_field "Wax Image URL" p1
      = Some "http://localhost:5000/images/1001_Wax.png" /\
    lookup_field "Wax Image URL" p2
      = Some "http://localhost:5000/images/1001_Wax.png".
Proof.
  apply (same_slot_same_file Part003 Demo.runtime Demo.config 1 2 "1001" "Wax"
           Demo.png "data:image/png;base64,CCCC" Demo.world);
    reflexivity.
Defined.

(** C9, as stated, fails: the extension comes from the data URL, so saving
    a JPEG over a PNG for the same (sku, imageType) creates a second file,
    leaves the first one on disk and changes the URL in the slot. *)
Lemma other_format_other_file :
  let r1 := update_product_image Part003 Demo.runtime Demo.config 1 "1001"
              "Wax" Demo.png Demo.world in
  let r2 := update_product_image Part003 Demo.runtime Demo.config 2 "1001"
              "Wax" Demo.jpeg (snd r1) in
  status (fst r1) = 200 /\ status (fst r2) = 200 /\
  files (snd r2) !! "public/images/1001_Wax.png"
    = Some (list_byte_of_string "AAAA") /\
  files (snd r2) !! "public/images/1001_Wax.jpeg"
    = Some (list_byte_of_string "BBBB") /\
  Wax_Image_URL <$> db (snd r1) !! 1001
    = Some (Some "http://localhost:5000/images/1001_Wax.png") /\
  Wax_Image_URL <$> db (snd r2) !! 1001
    = Some (Some "http://localhost:5000/images/1001_Wax.jpeg").
Proof. vm_compute. repeat split. Qed.

(** C10, as amended.  An update-product-image request on an existing
    Product, with non-empty sku and imageType, a data URL that has the
    image-data prefix and a part after a comma, an imageType that is not a
    recognized slot, a file name -- built from sku, imageType and the
    declared format -- without a path separator that [path.join] places
    directly in the public directory, and a write that succeeds, is
    answered 400; the collection is unchanged and the decoded image has been
    written under that name in the public directory. *)
Theorem file_written_before_slot_check
    rev rt cfg now sku imageType imageDataUrl w p payload :
  find_product rt sku w = Some p ->
  Js.startsWith "data:image/" imageDataUrl = true ->
  ~ In (imageType ++ " Image URL") six_slots ->
  Js.falsy sku = false -> Js.falsy imageType = false ->
  Js.split "," imageDataUrl !! 1%nat = Some payload ->
  let filename := filename_of sku imageType (extension_of imageDataUrl) in
  let imagePath := publicImagesDir cfg ++ "/" ++ filename in
  occurs "/" filename = false ->
  path_join rt (publicImagesDir cfg) filename = imagePath ->
  write_ok rt imagePath = true ->
  update_product_image rev rt cfg now sku imageType imageDataUrl w =
    (mkResponse 400 (JsonError ("Invalid imageType: " ++ imageType)),
     mkWorld (db w) (<[imagePath := base64_decode rt payload]> (files w))) /\
  directly_under (publicImagesDir cfg) imagePath.
Proof.
  intros Hfind Hpre Hslot Hs Ht Hp filename imagePath Hplain Hjoin Hwrite.
  unfold find_product in Hfind.
  destruct (castNumber rt sku) as [key |] eqn:Hkey; [| discriminate Hfind].
  apply (image_field_rejected rev) in Hslot.
  split; [| exists filename; split; [exact Hplain | reflexivity]].
  unfold update_product_image.
  rewrite Hs, Ht, (startsWith_nonempty _ Hpre), Hkey, Hfind, Hpre, Hp.
  fold filename. rewrite Hjoin, Hwrite, Hslot. reflexivity.
Qed.

Lemma file_written_before_slot_check_witness :
  update_product_image Part003 Demo.runtime Demo.config 1 "1001" "Gold"
    Demo.png Demo.world =
    (mkResponse 400 (JsonError "Invalid imageType: Gold"),
     mkWorld (db Demo.world)
       (<[ "public/images/1001_Gold.png" := list_byte_of_string "AAAA" ]>
          (files Demo.world))) /\
  directly_under "public/images" "public/images/1001_Gold.png".
Proof.
  apply (file_written_before_slot_check Part003 Demo.runtime Demo.config 1
           "1001" "Gold" Demo.png Demo.world (default_product 1001 0) "AAAA");
    try reflexivity.
  simpl. intros H. repeat (destruct H as [H | H]; [discriminate H |]). exact H.
Defined.

(** C10, as stated, fails: with the prefix but nothing after a comma, the
    decoding throws; and with an imageType that puts the file name in a
    directory that does not exist, the write throws.  Either way the answer
    is 500 and no file is written. *)
Lemma no_payload_no_file :
  find_product Demo.runtime "1001" Demo.world = Some (default_product 1001 0) /\
  Js.startsWith "data:image/" "data:image/png" = true /\
  ~ In ("Gold" ++ " Image URL") six_slots /\
  update_product_image Part003 Demo.runtime Demo.config 1 "1001" "Gold"
    "data:image/png" Demo.world
    = (mkResponse 500 (JsonThrown "Failed to save image: " TypeError),
       Demo.world) /\
  Js.startsWith "data:image/" Demo.png = true /\
  ~ In ("x/Gold" ++ " Image URL") six_slots /\
  update_product_image Part003 Demo.runtime Demo.config 1 "1001" "x/Gold"
    Demo.png Demo.world
    = (mkResponse 500 (JsonThrown "Failed to save image: " WriteError),
       Demo.world).
Proof.
  assert (Hnot : forall f, existsb (String.eqb f) six_slots = false ->
                           ~ In f six_slots).
  { intros f E Hin.
    assert (Ht : existsb (String.eqb f) six_slots = true).
    { apply existsb_exists. exists f.
      split; [exact Hin | apply String.eqb_refl]. }
    rewrite E in Ht. discriminate Ht. }
  split; [reflexivity |]. split; [reflexivity |].
  split; [exact (Hnot ("Gold" ++ " Image URL") eq_refl) |]. split; [reflexivity |].
  split; [reflexivity |].
  split; [exact (Hnot ("x/Gold" ++ " Image URL") eq_refl) |]. reflexivity.
Qed.

Lemma status_monotonic_witness :
  status_of 1001 (run Part003 Demo.runtime Demo.config [(7, seventh_save)]
                    after_six) = Some "Fulfilled" /\
  (transitions Part003 Demo.runtime Demo.config 1001 seven_saves Demo.world
   <= 1)%nat /\
  (exists p p',
      db after_five !! 1001 = Some p /\ Status p = "Pending" /\
      db after_six !! 1001 = Some p' /\
      Status p' = "Fulfilled" /\ Created_At p' = 6 /\
      Js.truthy (checkFulfillment Part003 p') = true /\
      (fulfillment_inv Part003 p ->
       Js.truthy (checkFulfillment Part003 p) = false)) /\
  Created_At <$>
    db (snd (handle_save Part003 Demo.runtime Demo.config 7 seventh_save
               after_six)) !! 1001
    = Created_At <$> db after_six !! 1001.
Proof.
  split.
  - apply (proj1 (status_monotonic Part003 Demo.runtime Demo.config 1001
                    [(7, seventh_save)] after_six)).
    vm_compute. reflexivity.
  - split.
    + apply (status_monotonic Part003 Demo.runtime Demo.config 1001
               seven_saves Demo.world).
    + split.
      * apply (status_monotonic Part003 Demo.runtime Demo.config 1001 []
                 Demo.world).
        vm_compute. reflexivity.
      * apply (status_monotonic Part003 Demo.runtime Demo.config 1001 []
                 Demo.world).
        vm_compute. reflexivity.
Defined.

(** * Further properties of the handlers *)

(** ** Data URLs *)

Lemma string_app_nil_r (s : string) : s ++ EmptyString = s.
Proof.
  induction s as [| c s IH]; [reflexivity |].
  change (String c (s ++ EmptyString) = String c s). f_equal. exact IH.
Qed.

Lemma string_app_assoc (a b c : string) : (a ++ b) ++ c = a ++ (b ++ c).
Proof.
  induction a as [| x a IH]; [reflexivity |].
  change (String x ((a ++ b) ++ c) = String x (a ++ (b ++ c))).
  f_equal. exact IH.
Qed.

Lemma occurs_app c a b : occurs c (a ++ b) = occurs c a || occurs c b.
Proof.
  induction a as [| d a IH]; simpl; [reflexivity |].
  rewrite IH. apply orb_assoc.
Qed.

Lemma strip_prefix_app p s : Js.strip_prefix p (p ++ s) = Some s.
Proof.
  induction p as [| c p IH]; simpl; [destruct s; reflexivity |].
  rewrite Ascii.eqb_refl. exact IH.
Qed.

Lemma startsWith_app p s : Js.startsWith p (p ++ s) = true.
Proof.
  unfold Js.startsWith. induction p as [| c p IH].
  - destruct s; reflexivity.
  - change (String c p ++ s) with (String c (p ++ s)).
    cbn [String.prefix]. destruct (ascii_dec c c) as [_ | Hne];
      [exact IH | contradiction Hne; reflexivity].
Qed.

Lemma upto_semicolon_app f r :
  occurs ";" f = false -> Js.upto_semicolon (f ++ String ";" r) = f.
Proof.
  induction f as [| c f IH]; simpl; [reflexivity |].
  intros H. apply orb_false_iff in H. destruct H as [Hc Hf].
  rewrite Hc, (IH Hf). reflexivity.
Qed.

Lemma upto_semicolon_clean s : occurs ";" (Js.upto_semicolon s) = false.
Proof.
  induction s as [| c s IH]; simpl; [reflexivity |].
  destruct (Ascii.eqb c ";") eqn:E; simpl; [reflexivity |].
  rewrite E. exact IH.
Qed.

Lemma rev_app_append s t a : String.rev_app s t ++ a = String.rev_app s (t ++ a).
Proof.
  revert t. induction s as [| c s IH]; intros t; [reflexivity |].
  cbn [String.rev_app]. rewrite IH. reflexivity.
Qed.

Lemma rev_cons_append d acc a :
  String.rev (String d acc) ++ a = String.rev acc ++ String d a.
Proof.
  unfold String.rev. cbn [String.rev_app]. rewrite !rev_app_append.
  reflexivity.
Qed.

Lemma split_from_clean c acc a :
  occurs c a = false -> Js.split_from c acc a = [String.rev acc ++ a].
Proof.
  revert acc. induction a as [| d a IH]; cbn [Js.split_from occurs];
    intros acc H.
  - rewrite string_app_nil_r. reflexivity.
  - apply orb_false_iff in H. destruct H as [Hd Ha].
    rewrite Hd, (IH _ Ha), rev_cons_append. reflexivity.
Qed.

Lemma split_from_first c acc a r :
  occurs c a = false ->
  Js.split_from c acc (a ++ String c r)
    = (String.rev acc ++ a) :: Js.split_from c EmptyString r.
Proof.
  revert acc. induction a as [| d a IH]; intros acc H.
  - change (EmptyString ++ String c r) with (String c r).
    cbn [Js.split_from]. rewrite Ascii.eqb_refl, string_app_nil_r.
    reflexivity.
  - change (String d a ++ String c r) with (String d (a ++ String c r)).
    cbn [Js.split_from occurs] in *.
    apply orb_false_iff in H. destruct H as [Hd Ha].
    rewrite Hd, (IH _ Ha), rev_cons_append. reflexivity.
Qed.

Lemma match_data_image_Some s cap :
  Js.match_data_image s = Some cap ->
  cap <> EmptyString /\ occurs ";" cap = false.
Proof.
  induction s as [| c s IH]; [discriminate |].
  cbn [Js.match_data_image].
  destruct (Js.strip_prefix "data:image/" (String c s)) as [rest |];
    [| exact IH].
  destruct (String.eqb (Js.upto_semicolon rest) EmptyString) eqn:E;
    [exact IH |].
  intros H. injection H as <-. split.
  - apply String.eqb_neq, E.
  - apply upto_semicolon_clean.
Qed.

Lemma extension_of_facts imageDataUrl :
  extension_of imageDataUrl <> EmptyString /\
  occurs ";" (extension_of imageDataUrl) = false /\
  (forall cap, Js.match_data_image imageDataUrl = Some cap ->
               extension_of imageDataUrl = cap).
Proof.
  unfold extension_of.
  destruct (Js.match_data_image imageDataUrl) as [cap |] eqn:E.
  - destruct (match_data_image_Some _ _ E) as [Hne Hclean].
    unfold Js.split. rewrite (split_from_clean _ _ _ Hclean). simpl.
    split; [exact Hne |]. split; [exact Hclean |].
    intros cap' H. injection H as <-. reflexivity.
  - split; [discriminate |]. split; [reflexivity | discriminate].
Qed.

(** X2.  The extension the image handler puts in a file name is never empty and
    never contains a semicolon, whatever the data URL: [.split(';')[0]]
    returns the captured group unchanged. *)
Theorem extension_well_formed imageDataUrl :
  extension_of imageDataUrl <> EmptyString /\
  occurs ";" (extension_of imageDataUrl) = false /\
  (forall cap, Js.match_data_image imageDataUrl = Some cap ->
               extension_of imageDataUrl = cap).
Proof. apply extension_of_facts. Qed.

Lemma data_url_parts format payload :
  format <> EmptyString ->
  occurs ";" format = false -> occurs "," format = false ->
  occurs "," payload = false ->
  Js.startsWith "data:image/" (data_url format payload) = true /\
  Js.split "," (data_url format payload) !! 1%nat = Some payload /\
  extension_of (data_url format payload) = format.
Proof.
  intros Hne Hsemi Hcomma Hpay.
  split; [apply (startsWith_app "data:image/") |]. split.
  - unfold Js.split, data_url.
    replace ("data:image/" ++ format ++ ";base64," ++ payload)
      with (("data:image/" ++ format ++ ";base64") ++ String "," payload)
      by (simpl; rewrite !string_app_assoc; reflexivity).
    rewrite split_from_first.
    + rewrite (split_from_clean _ _ _ Hpay). reflexivity.
    + change ("data:image/" ++ format ++ ";base64")
        with ("data:image/" ++ (format ++ ";base64")).
      rewrite !occurs_app, Hcomma. reflexivity.
  - apply extension_of_facts.
    unfold data_url.
    assert (Hstrip : Js.strip_prefix "data:image/"
                       ("data:image/" ++ format ++ ";base64," ++ payload)
                     = Some (format ++ String ";" ("base64," ++ payload)))
      by (apply (strip_prefix_app "data:image/")).
    change ("data:image/" ++ format ++ ";base64," ++ payload)
      with (String "d" ("ata:image/" ++ format ++ ";base64," ++ payload))
      in Hstrip |- *.
    cbn [Js.match_data_image]. rewrite Hstrip.
    rewrite (upto_semicolon_app _ _ Hsemi).
    apply String.eqb_neq in Hne. rewrite Hne. reflexivity.
Qed.

(** X1.  A data URL [data:image/<format>;base64,<payload>] whose format is
    non-empty and has no semicolon or comma, and whose payload has no comma,
    is read back by the image handler as that format and that payload. *)
Theorem data_url_parsed format payload :
  format <> EmptyString ->
  occurs ";" format = false -> occurs "," format = false ->
  occurs "," payload = false ->
  Js.startsWith "data:image/" (data_url format payload) = true /\
  Js.split "," (data_url format payload) !! 1%nat = Some payload /\
  extension_of (data_url format payload) = format.
Proof. apply data_url_parts. Qed.

Lemma data_url_parsed_witness :
  Js.startsWith "data:image/" (data_url "png" "AAAA") = true /\
  Js.split "," (data_url "png" "AAAA") !! 1%nat = Some "AAAA" /\
  extension_of (data_url "png" "AAAA") = "png".
Proof.
  apply (data_url_parsed "png" "AAAA"); [discriminate | reflexivity ..].
Defined.

(** ** Slot writes *)

Lemma lookup_assign f g v p :
  In g six_slots ->
  lookup_field f (assign g v p)
    = if String.eqb f g then Some v else lookup_field f p.
Proof.
  simpl. intros H.
  repeat (destruct H as [H | H]); try contradiction; subst g;
    unfold lookup_field, assign; cbn [String.eqb Ascii.eqb Bool.eqb];
    cbn [Pre_Image_URL Wax_Image_URL Cast_Image_URL Final_Image_URL
         Wax_Description Cast_Description Final_Description];
    repeat (match goal with
            | |- context [String.eqb f ?s] =>
                destruct (String.eqb_spec f s); subst
            end; try reflexivity; try discriminate; try congruence).
Qed.

Lemma lookup_write_slot rev now f g v p :
  In g six_slots ->
  lookup_field f (write_slot rev now g v p)
    = if String.eqb f g then Some v else lookup_field f p.
Proof.
  intros H. unfold write_slot. rewrite lookup_field_recompute.
  apply lookup_assign, H.
Qed.

Lemma assign_fixed g v p :
  In g six_slots ->
  SKU (assign g v p) = SKU p /\ Category (assign g v p) = Category p /\
  Pre_Image_URL (assign g v p) = Pre_Image_URL p.
Proof.
  simpl. intros H.
  repeat (destruct H as [H | H]); try contradiction; subst g;
    repeat split.
Qed.

Lemma recompute_fixed rev now p :
  SKU (recompute_status rev now p) = SKU p /\
  Category (recompute_status rev now p) = Category p /\
  Pre_Image_URL (recompute_status rev now p) = Pre_Image_URL p.
Proof. unfold recompute_status. case_match; repeat split. Qed.

Section Runs.

Variable rev : Revision.
Variable rt : Runtime.
Variable cfg : Config.
Variable key : Z.

(** A property of the document under [key] that every slot write keeps is
    kept by every sequence of save requests. *)
Lemma run_preserves (P : Product -> Prop) :
  (forall now f v p, In f six_slots -> v <> EmptyString ->
                     P p -> P (write_slot rev now f v p)) ->
  forall reqs w p,
    db w !! key = Some p -> P p ->
    exists p', db (run rev rt cfg reqs w) !! key = Some p' /\ P p'.
Proof.
  intros Hstep reqs.
  induction reqs as [| [now req] rest IH]; intros w p Hk HP; simpl.
  - eauto.
  - destruct (handle_save_at rev rt cfg key now req w)
      as [Hsame | (q & f & v & Hq & Hf & Hv & Hw)].
    + apply (IH _ p); [rewrite Hsame; exact Hk | exact HP].
    + rewrite Hk in Hq. injection Hq as <-.
      apply (IH _ _ Hw). apply Hstep; assumption.
Qed.

End Runs.

(** X8.  No sequence of save requests creates or deletes a Product: the set of
    SKUs in the collection stays the same. *)
Theorem run_keeps_the_products rev rt cfg reqs w :
  dom (db (run rev rt cfg reqs w)) = dom (db w).
Proof.
  revert w. induction reqs as [| [now req] rest IH]; intros w; simpl;
    [reflexivity |].
  rewrite IH.
  destruct (handle_save_db rev rt cfg now req w)
    as [-> | (k & p & f & v & Hk & _ & _ & ->)]; [reflexivity |].
  apply dom_insert_lookup_L. eauto.
Qed.

(** X9.  Along every sequence of save requests the SKU, the Category and the
    Pre-Image URL of a Product stay what they were: the handlers only write
    the six slots, the status and the timestamp. *)
Theorem run_keeps_identity rev rt cfg key reqs w p :
  db w !! key = Some p ->
  exists p',
    db (run rev rt cfg reqs w) !! key = Some p' /\
    SKU p' = SKU p /\ Category p' = Category p /\
    Pre_Image_URL p' = Pre_Image_URL p.
Proof.
  intros Hk.
  refine (run_preserves rev rt cfg key
            (fun q => SKU q = SKU p /\ Category q = Category p /\
                      Pre_Image_URL q = Pre_Image_URL p) _ reqs w p Hk _);
    [| repeat split].
  intros now f v q Hf _ (H1 & H2 & H3). unfold write_slot.
  destruct (recompute_fixed rev now (assign f v q)) as (E1 & E2 & E3).
  destruct (assign_fixed f v q Hf) as (F1 & F2 & F3).
  rewrite E1, E2, E3, F1, F2, F3. auto.
Qed.

Lemma run_keeps_identity_witness :
  exists p',
    db (run Part003 Demo.runtime Demo.config seven_saves Demo.world) !! 1001
      = Some p' /\
    SKU p' = 1001 /\ Category p' = None /\ Pre_Image_URL p' = None.
Proof.
  apply (run_keeps_identity Part003 Demo.runtime Demo.config 1001 seven_saves
           Demo.world (default_product 1001 0)).
  reflexivity.
Defined.

(** X10.  A slot that holds a non-empty value holds a non-empty value after any
    sequence of save requests: slots are overwritten, never cleared. *)
Theorem run_never_clears_a_slot rev rt cfg key reqs w p field :
  db w !! key = Some p ->
  Js.truthy (lookup_field field p) = true ->
  exists p',
    db (run rev rt cfg reqs w) !! key = Some p' /\
    Js.truthy (lookup_field field p') = true.
Proof.
  intros Hk Ht.
  refine (run_preserves rev rt cfg key
            (fun q => Js.truthy (lookup_field field q) = true)
            _ reqs w p Hk Ht).
  intros now f v q Hf Hv Hq. rewrite (lookup_write_slot _ _ _ _ _ _ Hf).
  destruct (String.eqb field f); [apply truthy_Some_iff, Hv | exact Hq].
Qed.

Lemma run_never_clears_a_slot_witness :
  exists p',
    db (run Part003 Demo.runtime Demo.config seven_saves
          (mkWorld {[ 1001 := five_of_six ]} ∅)) !! 1001 = Some p' /\
    Js.truthy (lookup_field "Wax Description" p') = true.
Proof.
  apply (run_never_clears_a_slot Part003 Demo.runtime Demo.config 1001
           seven_saves (mkWorld {[ 1001 := five_of_six ]} ∅) five_of_six);
    reflexivity.
Defined.

(** X12.  The fulfillment invariant of a Product -- status Pending or Fulfilled,
    and Fulfilled exactly when the check of the revision holds -- is kept
    by every sequence of save requests. *)
Theorem run_keeps_fulfillment_inv rev rt cfg key reqs w p :
  db w !! key = Some p -> fulfillment_inv rev p ->
  exists p',
    db (run rev rt cfg reqs w) !! key = Some p' /\ fulfillment_inv rev p'.
Proof.
  intros Hk Hinv.
  refine (run_preserves rev rt cfg key (fulfillment_inv rev) _ reqs w p Hk Hinv).
  intros now f v q _ Hv Hq. apply write_slot_inv; assumption.
Qed.

Lemma run_keeps_fulfillment_inv_witness :
  exists p',
    db (run Part003 Demo.runtime Demo.config seven_saves Demo.world) !! 1001
      = Some p' /\ fulfillment_inv Part003 p'.
Proof.
  apply (run_keeps_fulfillment_inv Part003 Demo.runtime Demo.config 1001
           seven_saves Demo.world (default_product 1001 0)).
  - reflexivity.
  - split; [left; reflexivity |]. split; discriminate.
Defined.

(** X13.  In [src/backend/server.js] a Product whose Pre-Image URL is empty can
    never be fulfilled by this server: whatever is saved, its status and
    its timestamp stay what they were. *)
Theorem Backend_needs_pre_image rt cfg key reqs w p :
  db w !! key = Some p ->
  Js.truthy (Pre_Image_URL p) = false ->
  exists p',
    db (run Backend rt cfg reqs w) !! key = Some p' /\
    Status p' = Status p /\ Created_At p' = Created_At p.
Proof.
  intros Hk Hpre.
  destruct (run_preserves Backend rt cfg key
              (fun q => Js.truthy (Pre_Image_URL q) = false /\
                        Status q = Status p /\ Created_At q = Created_At p))
    with (reqs := reqs) (w := w) (p := p) as (p' & Hk' & _ & Hs & Ht);
    [| exact Hk | repeat split; assumption | eauto].
  intros now f v q Hf _ (Hq & Hs & Ht).
  assert (Hcheck : Js.truthy (checkFulfillment Backend (assign f v q)) = false).
  { destruct (Js.truthy (checkFulfillment Backend (assign f v q))) eqn:E;
      [| reflexivity].
    apply check_Backend in E. destruct E as [E _].
    destruct (assign_fixed f v q Hf) as (_ & _ & F). rewrite F, Hq in E.
    discriminate E. }
  unfold write_slot, recompute_status. rewrite Hcheck. simpl.
  destruct (assign_fixed f v q Hf) as (_ & _ & F).
  rewrite F, assign_Status, assign_Created_At. auto.
Qed.

Lemma Backend_needs_pre_image_witness :
  exists p',
    db (run Backend Demo.runtime Demo.config seven_saves
          (mkWorld {[ 1001 := five_of_six ]} ∅)) !! 1001 = Some p' /\
    Status p' = "Pending" /\ Created_At p' = 0.
Proof.
  apply (Backend_needs_pre_image Demo.runtime Demo.config 1001 seven_saves
           (mkWorld {[ 1001 := five_of_six ]} ∅) five_of_six);
    reflexivity.
Defined.

(** ** Accepted saves *)

Lemma recognized_nonempty type :
  type = "Wax" \/ type = "Cast" \/ type = "Final" -> Js.falsy type = false.
Proof. intros [-> | [-> | ->]]; reflexivity. Qed.

Lemma image_save_ok rev rt cfg now sku imageType imageDataUrl w key p payload :
  sku <> EmptyString -> castNumber rt sku = Some key ->
  db w !! key = Some p ->
  In (imageType ++ " Image URL") six_slots ->
  Js.startsWith "data:image/" imageDataUrl = true ->
  Js.split "," imageDataUrl !! 1%nat = Some payload ->
  let filename := filename_of sku imageType (extension_of imageDataUrl) in
  let p' :=
    write_slot rev now (imageType ++ " Image URL")
      (publicImageUrl_of rev cfg filename) p in
  write_ok rt (path_join rt (publicImagesDir cfg) filename) = true ->
  update_product_image rev rt cfg now sku imageType imageDataUrl w =
    (mkResponse 200
       (JsonSaved ("Image for SKU " ++ sku ++ " saved as " ++ imageType
                   ++ " successfully.") p'),
     mkWorld (<[key := p']> (db w))
       (<[path_join rt (publicImagesDir cfg) filename
          := base64_decode rt payload]> (files w))).
Proof.
  intros Hs Hkey Hfind Hslot Hpre Hp filename p' Hwrite.
  pose proof (proj2 (image_field_six rev imageType) Hslot) as Hpath.
  pose proof (recognized_nonempty _
                (proj1 (image_field_recognized rev imageType) Hpath)) as Ht.
  apply falsy_false_iff in Hs.
  unfold update_product_image.
  rewrite Hs, Ht, (startsWith_nonempty _ Hpre), Hkey, Hfind, Hpre, Hp.
  fold filename. rewrite Hwrite, Hpath. reflexivity.
Qed.

Lemma description_save_ok rt now sku descType description w key p :
  sku <> EmptyString -> castNumber rt sku = Some key ->
  db w !! key = Some p ->
  In (descType ++ " Description") six_slots ->
  description <> EmptyString ->
  let p' :=
    write_slot Part003 now (descType ++ " Description") description p in
  update_product_description rt now sku descType description w =
    (mkResponse 200
       (JsonSaved ("Description for SKU " ++ sku ++ " saved as " ++ descType
                   ++ " successfully.") p'),
     mkWorld (<[key := p']> (db w)) (files w)).
Proof.
  intros Hs Hkey Hfind Hslot Hd p'.
  pose proof (proj2 (desc_field_six Part003 descType) Hslot) as Hpath.
  pose proof (recognized_nonempty _
                (proj1 (desc_field_recognized Part003 descType) Hpath)) as Ht.
  apply falsy_false_iff in Hs. apply falsy_false_iff in Hd.
  unfold update_product_description.
  rewrite Hs, Ht, Hd, Hkey, Hfind, Hpath. reflexivity.
Qed.

(** X3.  Saving [data:image/<format>;base64,<payload>] for a recognized image
    type of an existing Product, with no path separator in the sku or the
    format, is answered 200 when [path.join] places the name
    [<sku>_<type>.<format>] directly in the public directory and the write
    succeeds; the decoded payload is then stored under that name in the
    public directory, the slot holds the public URL of that file whatever
    it held before, and the record is the old one with that slot written
    and the status updated. *)
Theorem image_save_stores
    rev rt cfg now sku imageType format payload w key p :
  sku <> EmptyString -> castNumber rt sku = Some key ->
  db w !! key = Some p ->
  imageType = "Wax" \/ imageType = "Cast" \/ imageType = "Final" ->
  format <> EmptyString ->
  occurs ";" format = false -> occurs "," format = false ->
  occurs "," payload = false ->
  occurs "/" sku = false -> occurs "/" format = false ->
  let filename := sku ++ "_" ++ imageType ++ "." ++ format in
  let imagePath := publicImagesDir cfg ++ "/" ++ filename in
  let url := publicImageUrl_of rev cfg filename in
  let p' := write_slot rev now (imageType ++ " Image URL") url p in
  path_join rt (publicImagesDir cfg) filename = imagePath ->
  write_ok rt imagePath = true ->
  update_product_image rev rt cfg now sku imageType
    (data_url format payload) w =
    (mkResponse 200
       (JsonSaved ("Image for SKU " ++ sku ++ " saved as " ++ imageType
                   ++ " successfully.") p'),
     mkWorld (<[key := p']> (db w))
       (<[imagePath := base64_decode rt payload]> (files w))) /\
  lookup_field (imageType ++ " Image URL") p' = Some url /\
  directly_under (publicImagesDir cfg) imagePath.
Proof.
  intros Hs Hkey Hfind Hty Hne Hsemi Hcomma Hpay Hsku Hfmt
         filename imagePath url p' Hjoin Hwrite.
  destruct (data_url_parts format payload Hne Hsemi Hcomma Hpay)
    as (Hpre & Hsplit & Hext).
  assert (Hslot : In (imageType ++ " Image URL") six_slots).
  { apply (image_field_six rev), image_field_recognized, Hty. }
  split; [| split].
  - rewrite (image_save_ok rev rt cfg now sku imageType _ w key p payload
               Hs Hkey Hfind Hslot Hpre Hsplit).
    + rewrite Hext. unfold filename_of. fold filename. rewrite Hjoin.
      reflexivity.
    + rewrite Hext. unfold filename_of. fold filename.
      rewrite Hjoin. exact Hwrite.
  - subst p'. rewrite (lookup_write_slot _ _ _ _ _ _ Hslot).
    rewrite String.eqb_refl. reflexivity.
  - exists filename. split; [| reflexivity].
    subst filename. rewrite !occurs_app, Hsku, Hfmt.
    destruct Hty as [-> | [-> | ->]]; reflexivity.
Qed.

Lemma image_save_stores_witness :
  update_product_image Part003 Demo.runtime Demo.config 1 "1001" "Wax"
    (data_url "webp" "UklGRg") Demo.world
    = (mkResponse 200
         (JsonSaved "Image for SKU 1001 saved as Wax successfully."
            (write_slot Part003 1 "Wax Image URL"
               "http://localhost:5000/images/1001_Wax.webp"
               (default_product 1001 0))),
       mkWorld
         (<[1001 := write_slot Part003 1 "Wax Image URL"
                      "http://localhost:5000/images/1001_Wax.webp"
                      (default_product 1001 0)]> (db Demo.world))
         (<[ "public/images/1001_Wax.webp" := list_byte_of_string "UklGRg" ]>
            (files Demo.world))) /\
  directly_under "public/images" "public/images/1001_Wax.webp".
Proof.
  destruct (image_save_stores Part003 Demo.runtime Demo.config 1 "1001" "Wax"
              "webp" "UklGRg" Demo.world 1001 (default_product 1001 0))
    as (H & _ & Hdir); try reflexivity; try discriminate;
    [left; reflexivity |].
  split; [exact H | exact Hdir].
Defined.

(** X4.  The image endpoint answers 200 exactly when the sku is non-empty and
    identifies an existing Product, the image type is Wax, Cast or Final,
    the data URL has the image-data prefix and a part after a comma, and
    the write of the file succeeds. *)
Theorem image_save_accepted_iff rev rt cfg now sku imageType imageDataUrl w :
  status (fst (update_product_image rev rt cfg now sku imageType
                 imageDataUrl w)) = 200 <->
  sku <> EmptyString /\ is_Some (find_product rt sku w) /\
  (imageType = "Wax" \/ imageType = "Cast" \/ imageType = "Final") /\
  Js.startsWith "data:image/" imageDataUrl = true /\
  is_Some (Js.split "," imageDataUrl !! 1%nat) /\
  write_ok rt
    (path_join rt (publicImagesDir cfg)
       (filename_of sku imageType (extension_of imageDataUrl))) = true.
Proof.
  split.
  - unfold update_product_image, find_product.
    destruct (Js.falsy sku) eqn:Hs; [simpl; intros H; discriminate H |].
    destruct (Js.falsy imageType); [simpl; intros H; discriminate H |].
    destruct (Js.falsy imageDataUrl); [simpl; intros H; discriminate H |].
    cbn [orb].
    destruct (castNumber rt sku) as [key |]; [| simpl; intros H; discriminate H].
    destruct (db w !! key) as [p |]; [| simpl; intros H; discriminate H].
    destruct (Js.startsWith "data:image/" imageDataUrl); [| simpl; intros H; discriminate H].
    cbn [negb].
    destruct (Js.split "," imageDataUrl !! 1%nat) as [payload |];
      [| simpl; intros H; discriminate H].
    destruct (write_ok rt _) eqn:Hwrite; cbn [negb];
      [| simpl; intros H; discriminate H].
    destruct (schema_path rev (imageType ++ " Image URL")) eqn:Hpath;
      [| simpl; intros H; discriminate H].
    intros _. split; [apply falsy_false_iff, Hs |].
    split; [eauto |]. split; [apply (image_field_recognized rev), Hpath |].
    split; [reflexivity |]. split; [eauto | reflexivity].
  - intros (Hs & [p Hfind] & Hty & Hpre & [payload Hp] & Hwrite).
    unfold find_product in Hfind.
    destruct (castNumber rt sku) as [key |] eqn:Hkey; [| discriminate Hfind].
    rewrite (image_save_ok rev rt cfg now sku imageType imageDataUrl w key p
               payload Hs Hkey Hfind); try assumption; [reflexivity |].
    apply (image_field_six rev), image_field_recognized, Hty.
Qed.

(** X6.  The description endpoint answers 200 exactly when the sku is non-empty
    and identifies an existing Product, the description is non-empty and
    the type is Wax, Cast or Final; it then writes the description into the
    slot and leaves the file system alone. *)
Theorem description_save_accepted_iff rt now sku descType description w :
  (status (fst (update_product_description rt now sku descType description w))
     = 200 <->
   sku <> EmptyString /\ description <> EmptyString /\
   is_Some (find_product rt sku w) /\
   (descType = "Wax" \/ descType = "Cast" \/ descType = "Final")) /\
  (forall key p,
      status (fst (update_product_description rt now sku descType
                     description w)) = 200 ->
      castNumber rt sku = Some key -> db w !! key = Some p ->
      snd (update_product_description rt now sku descType description w)
        = mkWorld
            (<[key := write_slot Part003 now (descType ++ " Description")
                        description p]> (db w))
            (files w)).
Proof.
  assert (Hiff :
    status (fst (update_product_description rt now sku descType description w))
      = 200 <->
    sku <> EmptyString /\ description <> EmptyString /\
    is_Some (find_product rt sku w) /\
    (descType = "Wax" \/ descType = "Cast" \/ descType = "Final")).
  { split.
    - unfold update_product_description, find_product.
      destruct (Js.falsy sku) eqn:Hs; [simpl; intros H; discriminate H |].
      destruct (Js.falsy descType); [simpl; intros H; discriminate H |].
      destruct (Js.falsy description) eqn:Hd; [simpl; intros H; discriminate H |].
      cbn [orb].
      destruct (castNumber rt sku) as [key |]; [| simpl; intros H; discriminate H].
      destruct (db w !! key) as [p |]; [| simpl; intros H; discriminate H].
      destruct (schema_path Part003 (descType ++ " Description")) eqn:Hpath;
        [| simpl; intros H; discriminate H].
      intros _. split; [apply falsy_false_iff, Hs |].
      split; [apply falsy_false_iff, Hd |]. split; [eauto |].
      apply (desc_field_recognized Part003), Hpath.
    - intros (Hs & Hd & [p Hfind] & Hty).
      unfold find_product in Hfind.
      destruct (castNumber rt sku) as [key |] eqn:Hkey; [| discriminate Hfind].
      rewrite (description_save_ok rt now sku descType description w key p
                 Hs Hkey Hfind); try assumption; [reflexivity |].
      apply (desc_field_six Part003), desc_field_recognized, Hty. }
  split; [exact Hiff |].
  intros key p H200 Hkey Hfind.
  apply Hiff in H200. destruct H200 as (Hs & Hd & _ & Hty).
  rewrite (description_save_ok rt now sku descType description w key p
             Hs Hkey Hfind); try assumption; [reflexivity |].
  apply (desc_field_six Part003), desc_field_recognized, Hty.
Qed.

Lemma description_save_accepted_iff_witness :
  snd (update_product_description Demo.runtime 2 "1001" "Wax" "wax text"
         Demo.world)
    = mkWorld
        (<[1001 := write_slot Part003 2 "Wax Description" "wax text"
                     (default_product 1001 0)]> (db Demo.world))
        (files Demo.world).
Proof.
  apply (proj2 (description_save_accepted_iff Demo.runtime 2 "1001" "Wax"
                  "wax text" Demo.world) 1001 (default_product 1001 0));
    reflexivity.
Defined.

(** ** From six saves to Fulfilled ([Part003]) *)

Lemma write_slot_settles now f v q :
  Status q = "Pending" \/ Status q = "Fulfilled" ->
  (Status (write_slot Part003 now f v q) = "Pending" \/
   Status (write_slot Part003 now f v q) = "Fulfilled") /\
  (Js.truthy (checkFulfillment Part003 (write_slot Part003 now f v q)) = true ->
   Status (write_slot Part003 now f v q) = "Fulfilled").
Proof.
  intros [Hs | Hs]; rewrite write_slot_check.
  - rewrite (write_slot_pending _ _ _ _ _ Hs).
    destruct (Js.truthy (checkFulfillment Part003 (assign f v q))); simpl.
    + split; [right; reflexivity | reflexivity].
    + rewrite assign_Status, Hs. split; [left; reflexivity | discriminate].
  - rewrite (write_slot_fulfilled _ _ _ _ _ Hs), assign_Status.
    split; [right; exact Hs | intros _; exact Hs].
Qed.

Lemma fills_slot rt cfg key f req : fills rt cfg key f req -> In f six_slots.
Proof. destruct req; unfold fills; tauto. Qed.

Lemma fills_step rt cfg now req w key p f :
  db w !! key = Some p -> fills rt cfg key f req ->
  status (fst (handle_save Part003 rt cfg now req w)) = 200 /\
  exists v,
    v <> EmptyString /\
    db (snd (handle_save Part003 rt cfg now req w)) !! key
      = Some (write_slot Part003 now f v p).
Proof.
  intros Hk Hfills.
  destruct req as [sku imageType imageDataUrl | sku descType description];
    simpl in Hfills |- *.
  - destruct Hfills as (Hs & Hkey & Hslot & -> & Hpre & [payload Hp] & Hwrite).
    rewrite (image_save_ok Part003 rt cfg now sku imageType imageDataUrl w
               key p payload Hs Hkey Hk Hslot Hpre Hp Hwrite).
    split; [reflexivity |].
    eexists. split; [apply (publicImageUrl_nonempty Part003 cfg) |].
    simpl. apply lookup_insert_eq.
  - destruct Hfills as (Hs & Hkey & Hslot & -> & Hd).
    rewrite (description_save_ok rt now sku descType description w key p
               Hs Hkey Hk Hslot Hd).
    split; [reflexivity |].
    exists description. split; [exact Hd |]. simpl. apply lookup_insert_eq.
Qed.

(** [fills] is what it takes for the handler to answer 200: on a world that
    holds the product under [key], a save addressed to [key] is answered 200
    exactly when it fills some slot. *)
Lemma fills_iff_accepted rt cfg now req w key p :
  db w !! key = Some p ->
  (exists f, fills rt cfg key f req) <->
  status (fst (handle_save Part003 rt cfg now req w)) = 200 /\
  castNumber rt
    match req with
    | SaveImage sku _ _ | SaveDescription sku _ _ => sku
    end = Some key.
Proof.
  intros Hk. split.
  - intros [f Hfills].
    split; [apply (fills_step rt cfg now req w key p f Hk Hfills) |].
    destruct req; simpl in Hfills; tauto.
  - destruct req as [sku imageType imageDataUrl | sku descType description];
      cbn [handle_save]; intros [H200 Hkey].
    + exists (imageType ++ " Image URL"). revert H200.
      unfold update_product_image. rewrite Hkey, Hk.
      destruct (Js.falsy sku) eqn:Hs; [simpl; intros H; discriminate H |].
      destruct (Js.falsy imageType); [simpl; intros H; discriminate H |].
      destruct (Js.falsy imageDataUrl); [simpl; intros H; discriminate H |].
      cbn [orb].
      destruct (Js.startsWith "data:image/" imageDataUrl) eqn:Hpre;
        [| simpl; intros H; discriminate H].
      cbn [negb].
      destruct (Js.split "," imageDataUrl !! 1%nat) as [payload |] eqn:Hp;
        [| simpl; intros H; discriminate H].
      destruct (write_ok rt _) eqn:Hwrite; cbn [negb];
        [| simpl; intros H; discriminate H].
      destruct (schema_path Part003 (imageType ++ " Image URL")) eqn:Hpath;
        [| simpl; intros H; discriminate H].
      intros _. simpl.
      split; [apply falsy_false_iff, Hs |]. split; [exact Hkey |].
      split; [apply (image_field_six Part003), Hpath |].
      split; [reflexivity |]. split; [exact Hpre |].
      split; [rewrite Hp; eauto | exact Hwrite].
    + exists (descType ++ " Description"). revert H200.
      unfold update_product_description. rewrite Hkey, Hk.
      destruct (Js.falsy sku) eqn:Hs; [simpl; intros H; discriminate H |].
      destruct (Js.falsy descType); [simpl; intros H; discriminate H |].
      destruct (Js.falsy description) eqn:Hd;
        [simpl; intros H; discriminate H |].
      cbn [orb].
      destruct (schema_path Part003 (descType ++ " Description")) eqn:Hpath;
        [| simpl; intros H; discriminate H].
      intros _. simpl.
      split; [apply falsy_false_iff, Hs |]. split; [exact Hkey |].
      split; [apply (desc_field_six Part003), Hpath |].
      split; [reflexivity |]. apply falsy_false_iff, Hd.
Qed.

Section SixSaves.

Variable rt : Runtime.
Variable cfg : Config.
Variable key : Z.

Local Abbreviation checked p :=
  (Js.truthy (checkFulfillment Part003 p) = true -> Status p = "Fulfilled").

Lemma run_fills reqs :
  forall w p,
    db w !! key = Some p ->
    Status p = "Pending" \/ Status p = "Fulfilled" ->
    exists p',
      db (run Part003 rt cfg reqs w) !! key = Some p' /\
      (Status p' = "Pending" \/ Status p' = "Fulfilled") /\
      (forall f, Js.truthy (lookup_field f p) = true ->
                 Js.truthy (lookup_field f p') = true) /\
      (checked p -> checked p') /\
      (forall f now req,
          In (now, req) reqs -> fills rt cfg key f req ->
          Js.truthy (lookup_field f p') = true /\ checked p').
Proof.
  induction reqs as [| [now req] rest IH]; intros w p Hk Hs; simpl.
  - exists p. split; [exact Hk |]. split; [exact Hs |]. split; [auto |].
    split; [auto |]. intros ? ? ? [].
  - set (w1 := snd (handle_save Part003 rt cfg now req w)).
    assert (Hstep :
      exists p1,
        db w1 !! key = Some p1 /\
        (Status p1 = "Pending" \/ Status p1 = "Fulfilled") /\
        (forall f, Js.truthy (lookup_field f p) = true ->
                   Js.truthy (lookup_field f p1) = true) /\
        (checked p -> checked p1) /\
        (forall f, fills rt cfg key f req ->
                   Js.truthy (lookup_field f p1) = true /\ checked p1)).
    { destruct (handle_save_at Part003 rt cfg key now req w)
        as [Hsame | (q & g & v & Hq & Hg & Hv & Hw)].
      - exists p. fold w1 in Hsame. rewrite Hsame.
        split; [exact Hk |]. split; [exact Hs |]. split; [auto |].
        split; [auto |].
        intros f Hfills.
        destruct (fills_step rt cfg now req w key p f Hk Hfills)
          as (_ & v & Hv & Hw).
        fold w1 in Hw. rewrite Hsame, Hk in Hw. injection Hw as Hw.
        pose proof (fills_slot _ _ _ _ _ Hfills) as Hf.
        rewrite Hw. split.
        + rewrite (lookup_write_slot _ _ _ _ _ _ Hf), String.eqb_refl.
          apply truthy_Some_iff, Hv.
        + apply write_slot_settles, Hs.
      - rewrite Hk in Hq. injection Hq as <-. fold w1 in Hw.
        exists (write_slot Part003 now g v p).
        destruct (write_slot_settles now g v p Hs) as [Hs1 Hc1].
        split; [exact Hw |]. split; [exact Hs1 |]. split.
        + intros f Hf. rewrite (lookup_write_slot _ _ _ _ _ _ Hg).
          destruct (String.eqb f g); [apply truthy_Some_iff, Hv | exact Hf].
        + split; [intros _; exact Hc1 |].
          intros f Hfills.
          destruct (fills_step rt cfg now req w key p f Hk Hfills)
            as (_ & v' & Hv' & Hw').
          fold w1 in Hw'. rewrite Hw in Hw'. injection Hw' as Hw'.
          pose proof (fills_slot _ _ _ _ _ Hfills) as Hf.
          split; [| exact Hc1].
          rewrite Hw'. rewrite (lookup_write_slot _ _ _ _ _ _ Hf),
            String.eqb_refl.
          apply truthy_Some_iff, Hv'. }
    destruct Hstep as (p1 & Hk1 & Hs1 & Hmono1 & Hc1 & Hfill1).
    destruct (IH w1 p1 Hk1 Hs1) as (p' & Hk' & Hs' & Hmono & Hc & Hfill).
    exists p'. split; [exact Hk' |]. split; [exact Hs' |].
    split; [auto |]. split; [auto |].
    intros f now' req' [Heq | Hin] Hfills.
    + injection Heq as <- <-. destruct (Hfill1 f Hfills) as [Ht Hch].
      split; [apply Hmono, Ht | apply Hc, Hch].
    + apply (Hfill f now' req' Hin Hfills).
Qed.

End SixSaves.

(** X14.  In [Part003], a Product whose status is Pending or Fulfilled is
    Fulfilled, with its six slots filled, after any sequence of save
    requests that contains, for each of the six slots, a save that passes
    every check of its handler and, for an image, whose file write
    succeeds ([fills]: a save the handler answers 200), in whatever order
    and with whatever other requests in between. *)
Theorem six_saves_fulfil rt cfg key reqs w p :
  db w !! key = Some p ->
  Status p = "Pending" \/ Status p = "Fulfilled" ->
  (forall field, In field six_slots ->
     exists now req, In (now, req) reqs /\ fills rt cfg key field req) ->
  exists p',
    db (run Part003 rt cfg reqs w) !! key = Some p' /\
    six_slots_filled p' /\ Status p' = "Fulfilled".
Proof.
  intros Hk Hs Hall.
  destruct (run_fills rt cfg key reqs w p Hk Hs)
    as (p' & Hk' & _ & _ & _ & Hfill).
  assert (Hslot : forall field, In field six_slots ->
            Js.truthy (lookup_field field p') = true /\
            (Js.truthy (checkFulfillment Part003 p') = true ->
             Status p' = "Fulfilled")).
  { intros field Hin. destruct (Hall field Hin) as (now & req & Hreq & Hf).
    exact (Hfill field now req Hreq Hf). }
  assert (Hsix : six_slots_filled p').
  { unfold six_slots_filled.
    repeat split;
      [ apply (Hslot "Wax Image URL") | apply (Hslot "Cast Image URL")
      | apply (Hslot "Final Image URL") | apply (Hslot "Wax Description")
      | apply (Hslot "Cast Description") | apply (Hslot "Final Description") ];
      simpl; tauto. }
  exists p'. split; [exact Hk' |]. split; [exact Hsix |].
  apply (Hslot "Wax Image URL"); [simpl; tauto |].
  apply check_Part003, Hsix.
Qed.

Lemma six_saves_fulfil_witness :
  exists p',
    db (run Part003 Demo.runtime Demo.config seven_saves Demo.world) !! 1001
      = Some p' /\
    six_slots_filled p' /\ Status p' = "Fulfilled".
Proof.
  apply (six_saves_fulfil Demo.runtime Demo.config 1001 seven_saves Demo.world
           (default_product 1001 0)).
  - reflexivity.
  - left. reflexivity.
  - intros field Hin. simpl in Hin.
    destruct Hin as [<- | [<- | [<- | [<- | [<- | [<- | []]]]]]].
    + exists 1, (SaveImage "1001" "Wax" Demo.png).
      split; [simpl; tauto |].
      repeat split; try discriminate; try reflexivity; simpl; eauto 10.
    + exists 3, (SaveImage "1001" "Cast" Demo.png).
      split; [simpl; tauto |].
      repeat split; try discriminate; try reflexivity; simpl; eauto 10.
    + exists 4, (SaveImage "1001" "Final" Demo.png).
      split; [simpl; tauto |].
      repeat split; try discriminate; try reflexivity; simpl; eauto 10.
    + exists 2, (SaveDescription "1001" "Wax" "wax text").
      split; [simpl; tauto |].
      repeat split; try discriminate; try reflexivity; simpl; eauto 10.
    + exists 5, (SaveDescription "1001" "Cast" "cast text").
      split; [simpl; tauto |].
      repeat split; try discriminate; try reflexivity; simpl; eauto 10.
    + exists 6, (SaveDescription "1001" "Final" "final text").
      split; [simpl; tauto |].
      repeat split; try discriminate; try reflexivity; simpl; eauto 10.
Defined.

(** ** Rejected saves and the file system *)

(** X5.  An image save that is not answered 200 leaves the collection as it
    was; one answered 404 or 500, or whose data URL lacks the image-data
    prefix, leaves the whole world as it was, so nothing is written. *)
Theorem image_save_rejected rev rt cfg now sku imageType imageDataUrl w :
  let r := update_product_image rev rt cfg now sku imageType imageDataUrl w in
  (status (fst r) <> 200 -> db (snd r) = db w) /\
  (status (fst r) = 404 \/ status (fst r) = 500 -> snd r = w) /\
  (Js.startsWith "data:image/" imageDataUrl = false -> snd r = w).
Proof.
  unfold update_product_image.
  destruct (Js.falsy sku || Js.falsy imageType || Js.falsy imageDataUrl);
    [simpl; repeat split; auto |].
  destruct (castNumber rt sku) as [key |]; [| simpl; repeat split; auto].
  destruct (db w !! key) as [p |]; [| simpl; repeat split; auto].
  destruct (Js.startsWith "data:image/" imageDataUrl); cbn [negb];
    [| simpl; repeat split; auto].
  destruct (Js.split "," imageDataUrl !! 1%nat) as [payload |];
    [| simpl; repeat split; auto].
  destruct (write_ok rt _); cbn [negb]; [| simpl; repeat split; auto].
  destruct (schema_path rev (imageType ++ " Image URL")); cbn [negb]; simpl.
  - split; [intros H; contradiction H; reflexivity |].
    split; [intros [H | H]; discriminate H | intros H; discriminate H].
  - split; [reflexivity |].
    split; [intros [H | H]; discriminate H | intros H; discriminate H].
Qed.

Lemma image_save_rejected_witness :
  snd (update_product_image Part003 Demo.runtime Demo.config 1 "1001" "Wax"
         "http://example.org/ring.png" Demo.world) = Demo.world.
Proof.
  apply (image_save_rejected Part003 Demo.runtime Demo.config 1 "1001" "Wax"
           "http://example.org/ring.png" Demo.world).
  reflexivity.
Defined.

Lemma description_save_frame rt now sku descType description w :
  let r := update_product_description rt now sku descType description w in
  files (snd r) = files w /\ (status (fst r) <> 200 -> snd r = w).
Proof.
  unfold update_product_description.
  destruct (Js.falsy sku || Js.falsy descType || Js.falsy description);
    [simpl; split; auto |].
  destruct (castNumber rt sku) as [key |]; [| simpl; split; auto].
  destruct (db w !! key) as [p |]; [| simpl; split; auto].
  destruct (schema_path Part003 (descType ++ " Description")); cbn [negb];
    simpl; split; auto.
  intros H. contradiction H. reflexivity.
Qed.

(** X7.  A description save never touches the file system, and one that is not
    answered 200 leaves the whole world as it was. *)
Theorem description_save_rejected rt now sku descType description w :
  let r := update_product_description rt now sku descType description w in
  files (snd r) = files w /\ (status (fst r) <> 200 -> snd r = w).
Proof. apply description_save_frame. Qed.

Lemma description_save_rejected_witness :
  snd (update_product_description Demo.runtime 1 "9999" "Wax" "wax text"
         Demo.world) = Demo.world.
Proof.
  apply (description_save_rejected Demo.runtime 1 "9999" "Wax" "wax text"
           Demo.world).
  discriminate.
Defined.

(** X11.  No sequence of save requests deletes a file: a path that holds a file
    holds a file afterwards. *)
Theorem run_never_deletes_a_file rev rt cfg reqs w path :
  is_Some (files w !! path) ->
  is_Some (files (run rev rt cfg reqs w) !! path).
Proof.
  revert w. induction reqs as [| [now req] rest IH]; intros w H; simpl;
    [exact H |].
  apply IH.
  destruct req as [sku imageType imageDataUrl | sku descType description];
    simpl.
  - unfold update_product_image.
    repeat case_match; simpl; try exact H;
      (destruct (decide (path_join rt (publicImagesDir cfg)
                           (filename_of sku imageType
                              (extension_of imageDataUrl)) = path))
         as [-> | Hne];
       [rewrite lookup_insert_eq; eauto
       | rewrite lookup_insert_ne; [exact H | exact Hne]]).
  - destruct rev; [exact H |].
    rewrite (proj1 (description_save_frame rt now sku descType
                      description w)).
    exact H.
Qed.

Lemma run_never_deletes_a_file_witness :
  is_Some (files (run Part003 Demo.runtime Demo.config seven_saves
                    (mkWorld (db Demo.world)
                       {[ "public/images/1001_Wax.png" := [] ]}))
           !! "public/images/1001_Wax.png").
Proof.
  apply (run_never_deletes_a_file Part003 Demo.runtime Demo.config seven_saves).
  simpl. rewrite lookup_singleton_eq. eauto.
Defined.

(** ** Outbound calls of the image gateway *)

Section Calls.

Variable rt : Runtime.
Variable cfg : Config.
Variable post : Post.
Variable fs : gmap string Buffer.
Variable prompt : string.
Variable referenceImagePath : option string.

Lemma try_model_posted model :
  posted (snd (try_model rt cfg post fs prompt referenceImagePath model))
    = match read_reference rt fs referenceImagePath with
      | Some _ => [model]
      | None => []
      end.
Proof.
  unfold try_model.
  destruct (read_reference rt fs referenceImagePath); [| reflexivity].
  repeat case_match; reflexivity.
Qed.

Lemma try_models_log models :
  let log := snd (try_models rt cfg post fs prompt referenceImagePath models) in
  (exists rest, models = (tried log ++ rest)%list) /\
  posted log = match read_reference rt fs referenceImagePath with
               | Some _ => tried log
               | None => []
               end.
Proof.
  induction models as [| model rest IH]; simpl.
  - split; [exists []; reflexivity |]. case_match; reflexivity.
  - pose proof (try_model_tried rt cfg post fs prompt referenceImagePath model)
      as Ht.
    pose proof (try_model_posted model) as Hp.
    destruct (try_model rt cfg post fs prompt referenceImagePath model)
      as [[g |] log]; simpl in Ht, Hp |- *.
    + rewrite Ht, Hp. split; [exists rest; reflexivity |].
      case_match; reflexivity.
    + destruct (try_models rt cfg post fs prompt referenceImagePath rest)
        as [r log']. simpl in IH |- *.
      destruct IH as [[rest' Hrest] Hposted].
      unfold tried, posted in *. rewrite !omap_app, Ht, Hp, Hposted.
      split.
      * exists rest'. simpl. rewrite Hrest at 1. reflexivity.
      * case_match; reflexivity.
Qed.

End Calls.

(** X16.  The models the gateway tries are an initial segment of [imagenModels],
    each tried once and in order; it calls exactly the models it tries when
    the reference image can be read (or none was given), and calls nothing
    when a reference path was given whose file is missing.  So one request
    makes at most two outbound calls. *)
Theorem calls_follow_the_list rt cfg post fs prompt referenceImagePath :
  let log :=
    snd (generateImageWithGoogleAI rt cfg post fs prompt referenceImagePath) in
  (exists rest, imagenModels = (tried log ++ rest)%list) /\
  posted log = match read_reference rt fs referenceImagePath with
               | Some _ => tried log
               | None => []
               end /\
  (length (posted log) <= 2)%nat.
Proof.
  assert (H : let log :=
                snd (generateImageWithGoogleAI rt cfg post fs prompt
                       referenceImagePath) in
              (exists rest, imagenModels = (tried log ++ rest)%list) /\
              posted log = match read_reference rt fs referenceImagePath with
                           | Some _ => tried log
                           | None => []
                           end).
  { unfold generateImageWithGoogleAI.
    destruct (Js.falsy (GOOGLE_AI_API_KEY cfg)).
    - simpl. split; [exists imagenModels; reflexivity |].
      case_match; reflexivity.
    - pose proof (try_models_log rt cfg post fs prompt referenceImagePath
                    imagenModels) as Hlog.
      destruct (try_models rt cfg post fs prompt referenceImagePath
                  imagenModels) as [[g |] log];
        cbv zeta in Hlog |- *; cbn [snd] in Hlog |- *; exact Hlog. }
  cbv zeta in H |- *. destruct H as [[rest Hrest] Hposted].
  split; [eauto |]. split; [exact Hposted |].
  assert (Hlen : (length (tried (snd (generateImageWithGoogleAI rt cfg post fs
                                        prompt referenceImagePath))) <= 2)%nat).
  { apply (f_equal length) in Hrest. rewrite length_app in Hrest.
    simpl in Hrest. lia. }
  rewrite Hposted. case_match; [exact Hlen | simpl; lia].
Qed.

(** X17.  When the upload that a request refers to is not on disk (and the API
    key is configured and the prompt non-empty), every attempt fails at
    reading it: no outbound call is made, the answer is the 500 of the
    exhausted model list, and the world is unchanged. *)
Theorem missing_reference_file rt cfg post prompt path w :
  Js.falsy prompt = false ->
  Js.falsy (GOOGLE_AI_API_KEY cfg) = false ->
  path <> EmptyString -> files w !! path = None ->
  let '(res, w', log) := generate_image rt cfg post prompt (Some path) w in
  res = mkResponse 500
          (JsonError "Failed to generate image: Image generation failed: All configured Imagen models failed.")
  /\ w' = w /\ posted log = [] /\ tried log = imagenModels.
Proof.
  intros Hprompt Hkey Hpath Hfile.
  unfold generate_image, generateImageWithGoogleAI. rewrite Hprompt, Hkey.
  assert (Hread : read_reference rt (files w) (Some path) = None).
  { unfold read_reference. apply truthy_Some_iff in Hpath.
    rewrite Hpath. simpl. rewrite Hfile. reflexivity. }
  unfold imagenModels, try_models, try_model. rewrite Hread. simpl.
  repeat split.
Qed.

Lemma missing_reference_file_witness :
  let '(res, w', log) :=
    generate_image Demo.runtime Demo.config Demo.all_succeed "gold ring"
      (Some "uploads/1700000000000-ring.png") Demo.world in
  res = mkResponse 500
          (JsonError "Failed to generate image: Image generation failed: All configured Imagen models failed.")
  /\ w' = Demo.world /\ posted log = [] /\ tried log = imagenModels.
Proof.
  apply (missing_reference_file Demo.runtime Demo.config Demo.all_succeed
           "gold ring" "uploads/1700000000000-ring.png" Demo.world);
    try reflexivity.
  discriminate.
Defined.

Lemma format_of_mime_range mime :
  In (format_of_mime mime) ["jpeg"; "gif"; "webp"; "png"].
Proof. unfold format_of_mime. repeat case_match; simpl; tauto. Qed.

Lemma try_models_model rt cfg post fs prompt referenceImagePath models g log :
  try_models rt cfg post fs prompt referenceImagePath models = (Some g, log) ->
  In (modelUsed g) models /\
  In (imageFormat g) ["jpeg"; "gif"; "webp"; "png"].
Proof.
  revert log. induction models as [| model rest IH]; intros log; simpl;
    [discriminate |].
  destruct (try_model rt cfg post fs prompt referenceImagePath model)
    as [[g' |] log0] eqn:E.
  - intros H. injection H as -> _.
    unfold try_model in E. repeat case_match; try discriminate E.
    injection E as <- _. simpl. split; [tauto | apply format_of_mime_range].
  - destruct (try_models rt cfg post fs prompt referenceImagePath rest)
      as [r log']. intros H. injection H as -> _.
    destruct (IH _ eq_refl) as [H1 H2]. split; [right; exact H1 | exact H2].
Qed.

(** X18.  The generate-image endpoint never touches the Product collection and
    never writes a file; the only file it can remove is the upload of the
    request.  Its answer is the 400 of the empty prompt, one of two 500
    messages (no API key, all models failed: the error of a model call
    never reaches the client), or a 200 whose content type is image/jpeg,
    image/gif, image/webp or image/png and whose model is one of
    [imagenModels]. *)
Theorem generate_image_answers rt cfg post prompt file w :
  let '(res, w', log) := generate_image rt cfg post prompt file w in
  db w' = db w /\
  (files w' = files w \/
   exists path, file = Some path /\ files w' = delete path (files w)) /\
  (res = mkResponse 400 (JsonError "Prompt is required") \/
   res = mkResponse 500
           (JsonError "Failed to generate image: Image generation failed: Google AI API key not configured") \/
   res = mkResponse 500
           (JsonError "Failed to generate image: Image generation failed: All configured Imagen models failed.") \/
   exists format model image,
     res = mkResponse 200 (ImageBody ("image/" ++ format) model image) /\
     In format ["jpeg"; "gif"; "webp"; "png"] /\ In model imagenModels).
Proof.
  unfold generate_image.
  destruct (Js.falsy prompt); [simpl; auto |].
  unfold generateImageWithGoogleAI.
  destruct (Js.falsy (GOOGLE_AI_API_KEY cfg)); [simpl; auto |].
  destruct (try_models rt cfg post (files w) prompt file imagenModels)
    as [[g |] log] eqn:E; [| simpl; auto 6].
  destruct (try_models_model _ _ _ _ _ _ _ _ _ E) as [Hm Hf].
  split; [case_match; reflexivity |]. split.
  - case_match; [| left; reflexivity]. right.
    destruct file as [path |]; [| discriminate]. exists path.
    split; reflexivity.
  - right. right. right. exists (imageFormat g), (modelUsed g), (imageBuffer g).
    auto.
Qed.

(** ** Description generation *)

(** A generate-description request with an empty prompt is answered 400 and
    no outbound call is made. *)
Theorem empty_description_prompt_rejected textKey post prompt :
  Js.falsy prompt = true ->
  generate_description textKey post prompt
    = (mkDescResponse 400 (DescError "Prompt is required"), []).
Proof. intros H. unfold generate_description. rewrite H. reflexivity. Qed.

Lemma empty_description_prompt_rejected_witness :
  generate_description "text-key" (fun _ _ _ => TextData None) EmptyString
    = (mkDescResponse 400 (DescError "Prompt is required"), []).
Proof.
  apply (empty_description_prompt_rejected "text-key"
           (fun _ _ _ => TextData None) EmptyString).
  reflexivity.
Defined.

(** X19.  For a non-empty prompt the description endpoint calls the text model
    once, or not at all when the text API key is not configured.  It answers
    200 exactly when the call resolves and the first part of the first
    candidate exists; the description is then that part's text, absent when
    the part has none.  Every other outcome is the same 500 message. *)
Theorem generate_description_answers textKey post prompt :
  Js.falsy prompt = false ->
  let '(res, calls) := generate_description textKey post prompt in
  calls = (if Js.falsy textKey then [] else [textModel]) /\
  (res = mkDescResponse 500
           (DescError "Failed to generate description: Text generation failed")
   \/ exists candidates t,
        Js.falsy textKey = false /\
        post textModel textKey prompt = TextData candidates /\
        extract_text candidates = Some t /\
        res = mkDescResponse 200 (DescJson t)) /\
  (forall candidates t,
      Js.falsy textKey = false ->
      post textModel textKey prompt = TextData candidates ->
      extract_text candidates = Some t ->
      res = mkDescResponse 200 (DescJson t)) /\
  (forall candidates parts,
      Js.falsy textKey = false ->
      post textModel textKey prompt
        = TextData (Some (mkCandidate
                            (Some (mkContent (Some (mkPart None :: parts))))
                          :: candidates)) ->
      res = mkDescResponse 200 (DescJson None)).
Proof.
  intros Hprompt. unfold generate_description, generateDescriptionWithGoogleAI.
  rewrite Hprompt.
  destruct (Js.falsy textKey) eqn:Hkey.
  - split; [reflexivity |]. split; [left; reflexivity |].
    split; intros; discriminate.
  - destruct (post textModel textKey prompt) as [message | candidates] eqn:Hp.
    + split; [reflexivity |]. split; [left; reflexivity |].
      split; intros; discriminate.
    + destruct (extract_text candidates) as [t |] eqn:Ht.
      * split; [reflexivity |]. split; [right; eauto 6 |]. split.
        -- intros c t' _ Hc Ht'. injection Hc as <-. rewrite Ht in Ht'.
           injection Ht' as <-. reflexivity.
        -- intros c ps _ Hc. injection Hc as ->. simpl in Ht.
           injection Ht as <-. reflexivity.
      * split; [reflexivity |]. split; [left; reflexivity |]. split.
        -- intros c t' _ Hc Ht'. injection Hc as <-. rewrite Ht in Ht'.
           discriminate Ht'.
        -- intros c ps _ Hc. injection Hc as ->. discriminate Ht.
Qed.

Lemma generate_description_answers_witness :
  let post : TextPost :=
    fun _ _ _ =>
      TextData (Some [mkCandidate (Some (mkContent (Some [mkPart None])))]) in
  let '(res, calls) := generate_description "text-key" post "a gold ring" in
  calls = [textModel] /\ res = mkDescResponse 200 (DescJson None).
Proof.
  intros post.
  pose proof (generate_description_answers "text-key" post "a gold ring"
                eq_refl) as H.
  destruct (generate_description "text-key" post "a gold ring") as [res calls].
  destruct H as (Hcalls & _ & _ & Hnone).
  split; [exact Hcalls |].
  apply (Hnone [] []); reflexivity.
Defined.

(** ** Uploads *)

(** X20.  The upload filter accepts a file exactly when its MIME type starts
    with "image/"; the error it raises otherwise is answered 500 by the
    error middleware.  The middleware answers 400 only for multer's
    LIMIT_FILE_SIZE error, and 500 with the error's own message for every
    other error, other multer errors included. *)
Theorem upload_errors :
  (forall mimetype,
      match fileFilter mimetype with
      | None => Js.startsWith "image/" mimetype = true
      | Some e =>
          Js.startsWith "image/" mimetype = false /\
          error_middleware e
            = mkResponse 500 (JsonError "Only image files are allowed!")
      end) /\
  (forall e,
      status (error_middleware e) = 400 <->
      exists message, e = MulterError "LIMIT_FILE_SIZE" message) /\
  (forall e,
      status (error_middleware e) <> 400 ->
      error_middleware e
        = mkResponse 500
            (JsonError match e with
                       | MulterError _ message => message
                       | PlainError message => message
                       end)).
Proof.
  split; [| split].
  - intros mimetype. unfold fileFilter.
    destruct (Js.startsWith "image/" mimetype); [reflexivity |].
    split; reflexivity.
  - intros [code message | message]; simpl.
    + destruct (String.eqb_spec code "LIMIT_FILE_SIZE") as [-> | Hne]; simpl.
      * split; [eauto | reflexivity].
      * split; [discriminate |]. intros [m H]. injection H as -> _.
        contradiction Hne. reflexivity.
    + split; [discriminate |]. intros [m H]. discriminate H.
  - intros [code message | message]; simpl; [| reflexivity].
    destruct (String.eqb code "LIMIT_FILE_SIZE"); simpl; [| reflexivity].
    intros H. contradiction H. reflexivity.
Qed.

Lemma pretty_N_go_no_dash x s :
  occurs "-" s = false -> occurs "-" (pretty_N_go x s) = false.
Proof.
  revert s. induction (N.lt_wf_0 x) as [x _ IH]; intros s Hs.
  assert (x = 0 \/ 0 < x)%N as [-> | Hpos] by lia.
  - rewrite pretty_N_go_0. exact Hs.
  - rewrite pretty_N_go_step by exact Hpos. apply IH.
    + apply N.div_lt; [exact Hpos | reflexivity].
    + cbn [occurs]. rewrite Hs.
      unfold pretty_N_char. repeat case_match; reflexivity.
Qed.

Lemma pretty_N_no_dash (n : N) : occurs "-" (pretty n) = false.
Proof.
  unfold pretty, pretty_N. case_decide; [reflexivity |].
  apply pretty_N_go_no_dash. reflexivity.
Qed.

Lemma split_at_dash a b n1 n2 :
  occurs "-" a = false -> occurs "-" b = false ->
  a ++ String "-" n1 = b ++ String "-" n2 -> a = b /\ n1 = n2.
Proof.
  revert b. induction a as [| c a IH]; intros [| d b] Ha Hb H.
  - injection H as ->. auto.
  - change (String "-" n1 = String d (b ++ String "-" n2)) in H.
    injection H as <- _. cbn [occurs] in Hb. discriminate Hb.
  - change (String c (a ++ String "-" n1) = String "-" n2) in H.
    injection H as -> _. cbn [occurs] in Ha. discriminate Ha.
  - change (String c (a ++ String "-" n1) = String d (b ++ String "-" n2))
      in H.
    injection H as -> H. cbn [occurs] in Ha, Hb.
    apply orb_false_iff in Ha. apply orb_false_iff in Hb.
    destruct (IH b (proj2 Ha) (proj2 Hb) H) as [-> ->]. auto.
Qed.

(** X21.  The name multer stores an upload under determines both the time of
    the upload and the original file name: two uploads get the same
    temporary file only if they arrive in the same millisecond with the same
    original name. *)
Theorem stored_filename_inj now1 name1 now2 name2 :
  stored_filename now1 name1 = stored_filename now2 name2 ->
  now1 = now2 /\ name1 = name2.
Proof.
  unfold stored_filename. intros H.
  change (pretty now1 ++ String "-" name1 = pretty now2 ++ String "-" name2)
    in H.
  destruct (split_at_dash _ _ _ _ (pretty_N_no_dash now1)
              (pretty_N_no_dash now2) H) as [Hp Hn].
  split; [apply (inj pretty), Hp | exact Hn].
Qed.

Lemma stored_filename_inj_witness :
  1700000000000%N = 1700000000000%N /\ "ring.png" = "ring.png".
Proof.
  apply (stored_filename_inj 1700000000000 "ring.png" 1700000000000 "ring.png").
  reflexivity.
Defined.

(** ** File names of the slots *)

Lemma filename_of_types sku type1 type2 ext1 ext2 :
  type1 = "Wax" \/ type1 = "Cast" \/ type1 = "Final" ->
  type2 = "Wax" \/ type2 = "Cast" \/ type2 = "Final" ->
  type1 <> type2 ->
  filename_of sku type1 ext1 <> filename_of sku type2 ext2.
Proof.
  intros H1 H2 Hne. unfold filename_of. intros H.
  apply (inj (String.app sku)) in H.
  destruct H1 as [-> | [-> | ->]]; destruct H2 as [-> | [-> | ->]];
    try (contradiction Hne; reflexivity); discriminate H.
Qed.

Lemma publicImageUrl_of_inj rev cfg name1 name2 :
  publicImageUrl_of rev cfg name1 = publicImageUrl_of rev cfg name2 ->
  name1 = name2.
Proof.
  unfold publicImageUrl_of. intros H. destruct rev.
  - apply (inj (String.app "http://localhost:")) in H.
    apply (inj (String.app (PORT cfg))) in H.
    apply (inj (String.app "/images/")) in H. exact H.
  - apply (inj (String.app (SERVER_BASE_URL cfg))) in H.
    apply (inj (String.app "/images/")) in H. exact H.
Qed.

(** X15.  Take two image saves for one sku and two different image types,
    both answered 200, whose file names [path.join] places directly in the
    public directory.  Their file names and their public URLs differ, and
    after the second save each of the two files holds the bytes of its own
    save: the second save has not overwritten the file of the first. *)
Theorem slots_have_their_own_files
    rev rt cfg now1 now2 sku type1 type2 url1 url2 w :
  let r1 := update_product_image rev rt cfg now1 sku type1 url1 w in
  let r2 := update_product_image rev rt cfg now2 sku type2 url2 (snd r1) in
  let name1 := filename_of sku type1 (extension_of url1) in
  let name2 := filename_of sku type2 (extension_of url2) in
  let dir := publicImagesDir cfg in
  status (fst r1) = 200 -> status (fst r2) = 200 ->
  type1 <> type2 ->
  path_join rt dir name1 = dir ++ "/" ++ name1 ->
  path_join rt dir name2 = dir ++ "/" ++ name2 ->
  exists payload1 payload2,
    Js.split "," url1 !! 1%nat = Some payload1 /\
    Js.split "," url2 !! 1%nat = Some payload2 /\
    name1 <> name2 /\
    publicImageUrl_of rev cfg name1 <> publicImageUrl_of rev cfg name2 /\
    files (snd r2) !! (dir ++ "/" ++ name1)
      = Some (base64_decode rt payload1) /\
    files (snd r2) !! (dir ++ "/" ++ name2)
      = Some (base64_decode rt payload2).
Proof.
  intros r1 r2 name1 name2 dir H1 H2 Hne Hj1 Hj2.
  destruct (update_product_image_200 rev rt cfg now1 sku type1 url1 w H1)
    as (k1 & q1 & payload1 & _ & _ & Hs1 & Hslot1 & E1).
  destruct (update_product_image_200 rev rt cfg now2 sku type2 url2
              (snd r1) H2)
    as (k2 & q2 & payload2 & _ & _ & Hs2 & Hslot2 & E2).
  cbv zeta in E1, E2. fold name1 in E1. fold name2 in E2. fold dir in E1, E2.
  rewrite Hj1 in E1. rewrite Hj2 in E2.
  assert (Hnames : name1 <> name2).
  { apply filename_of_types; [| | exact Hne].
    - apply (image_field_recognized rev), (image_field_six rev), Hslot1.
    - apply (image_field_recognized rev), (image_field_six rev), Hslot2. }
  exists payload1, payload2.
  split; [exact Hs1 |]. split; [exact Hs2 |]. split; [exact Hnames |].
  split; [intros H; apply Hnames, (publicImageUrl_of_inj rev cfg), H |].
  subst r2. rewrite E2. subst r1. rewrite E1. simpl. split.
  - rewrite lookup_insert_ne; [apply lookup_insert_eq |].
    intros H. apply Hnames. apply (inj (String.app dir)) in H.
    apply (inj (String.app "/")) in H. symmetry. exact H.
  - apply lookup_insert_eq.
Qed.

Lemma slots_have_their_own_files_witness :
  let r1 := update_product_image Part003 Demo.runtime Demo.config 1 "1001"
              "Wax" Demo.png Demo.world in
  let r2 := update_product_image Part003 Demo.runtime Demo.config 2 "1001"
              "Cast" Demo.jpeg (snd r1) in
  exists payload1 payload2,
    Js.split "," Demo.png !! 1%nat = Some payload1 /\
    Js.split "," Demo.jpeg !! 1%nat = Some payload2 /\
    "1001_Wax.png" <> "1001_Cast.jpeg" /\
    "http://localhost:5000/images/1001_Wax.png"
      <> "http://localhost:5000/images/1001_Cast.jpeg" /\
    files (snd r2) !! "public/images/1001_Wax.png"
      = Some (list_byte_of_string payload1) /\
    files (snd r2) !! "public/images/1001_Cast.jpeg"
      = Some (list_byte_of_string payload2).
Proof.
  apply (slots_have_their_own_files Part003 Demo.runtime Demo.config 1 2
           "1001" "Wax" "Cast" Demo.png Demo.jpeg Demo.world);
    [reflexivity | reflexivity | discriminate | reflexivity | reflexivity].
Defined.

(** ** The generation-log server *)

(** X22.  From a non-empty MIME type the generation-log server infers the same
    format as the current gateway, unless the type names png together with gif or
    webp (and neither jpeg nor jpg), where the older code answers png.
    Without a MIME type the current gateway answers png, while the older
    code reads the first two bytes; its answer is one of the four formats
    too. *)
Theorem legacy_format_agrees :
  (forall m imageBuffer,
      m <> EmptyString ->
      Js.includes "png" m = false \/
      (Js.includes "gif" m = false /\ Js.includes "webp" m = false) \/
      Js.includes "jpeg" m || Js.includes "jpg" m = true ->
      Legacy.format_of (Some m) imageBuffer = format_of_mime (Some m)) /\
  (forall rest,
      Legacy.format_of None (Byte.xff :: Byte.xd8 :: rest) = "jpeg" /\
      Legacy.format_of None (Byte.x47 :: Byte.x49 :: rest) = "gif" /\
      format_of_mime None = "png") /\
  (forall mime imageBuffer,
      In (Legacy.format_of mime imageBuffer) ["jpeg"; "gif"; "webp"; "png"]).
Proof.
  split; [| split].
  - intros m imageBuffer Hm H. unfold Legacy.format_of, format_of_mime.
    apply truthy_Some_iff in Hm. rewrite Hm.
    change (default EmptyString (Some m)) with m.
    destruct (Js.includes "jpeg" m || Js.includes "jpg" m); [reflexivity |].
    destruct H as [H | [[H1 H2] | H]]; [| | discriminate H].
    + rewrite H. reflexivity.
    + rewrite H1, H2. destruct (Js.includes "png" m); reflexivity.
  - intros rest. repeat split.
  - intros mime imageBuffer. unfold Legacy.format_of.
    repeat case_match; simpl; tauto.
Qed.

Lemma legacy_format_agrees_witness :
  Legacy.format_of (Some "image/webp") [] = format_of_mime (Some "image/webp").
Proof.
  apply (proj1 legacy_format_agrees "image/webp" []).
  - discriminate.
  - left. reflexivity.
Defined.

(** X23.  The save-image endpoint of the generation-log server answers 200
    exactly when prompt and imageUrl are non-empty and the URL, if it has
    the image-data prefix, has a part after a comma.  It then appends one
    document, with the given id, prompt, URL and creation time, to the
    collection and changes no other document; a URL without the prefix is
    stored with no image data, the format png and the size the request
    gave.  Any other answer leaves the collection as it was. *)
Theorem save_image_appends
    rt id now prompt imageUrl referenceImage modelUsed imageSize images :
  let r := Legacy.save_image rt id now prompt imageUrl referenceImage
             modelUsed imageSize images in
  (Legacy.status (fst r) = 200 <->
   prompt <> EmptyString /\ imageUrl <> EmptyString /\
   (Js.startsWith "data:image/" imageUrl = true ->
    is_Some (Js.split "," imageUrl !! 1%nat))) /\
  (Legacy.status (fst r) = 200 ->
   exists image,
     snd r = (images ++ [image])%list /\
     Legacy._id image = id /\ Legacy.prompt image = prompt /\
     Legacy.imageUrl image = imageUrl /\ Legacy.createdAt image = now /\
     (Js.startsWith "data:image/" imageUrl = false ->
      Legacy.imageData image = None /\ Legacy.imageFormat image = "png" /\
      Legacy.imageSize image = imageSize)) /\
  (Legacy.status (fst r) <> 200 -> snd r = images).
Proof.
  unfold Legacy.save_image.
  destruct (Js.falsy prompt) eqn:Hp.
  { apply String.eqb_eq in Hp. subst prompt. simpl. split; [split |].
    - intros Hbad. discriminate Hbad.
    - intros [Hbad _]. contradiction Hbad. reflexivity.
    - split; [intros Hbad; discriminate Hbad | reflexivity]. }
  destruct (Js.falsy imageUrl) eqn:Hu.
  { apply String.eqb_eq in Hu. subst imageUrl. simpl. split; [split |].
    - intros Hbad. discriminate Hbad.
    - intros (_ & Hbad & _). contradiction Hbad. reflexivity.
    - split; [intros Hbad; discriminate Hbad | reflexivity]. }
  apply falsy_false_iff in Hp. apply falsy_false_iff in Hu. cbn [orb].
  destruct (Js.startsWith "data:image/" imageUrl) eqn:Hpre.
  - destruct (Js.split "," imageUrl !! 1%nat) as [base64Data |] eqn:Hs; simpl.
    + split; [split |].
      * intros _. split; [exact Hp |]. split; [exact Hu |]. eauto.
      * reflexivity.
      * split; [| intros Hbad; contradiction Hbad; reflexivity].
        intros _. eexists. split; [reflexivity |].
        do 4 (split; [reflexivity |]). intros Hbad. discriminate Hbad.
    + split; [split |].
      * intros Hbad. discriminate Hbad.
      * intros (_ & _ & Hsome). destruct (Hsome eq_refl) as [x Hx].
        discriminate Hx.
      * split; [intros Hbad; discriminate Hbad | reflexivity].
  - simpl. split; [split |].
    + intros _. split; [exact Hp |]. split; [exact Hu |].
      intros Hbad. discriminate Hbad.
    + reflexivity.
    + split; [| intros Hbad; contradiction Hbad; reflexivity].
      intros _. eexists. split; [reflexivity |].
      do 4 (split; [reflexivity |]). intros _.
      split; [reflexivity |]. split; [reflexivity |]. simpl.
      destruct (imageSize =? 0) eqn:E; [| reflexivity].
      apply Z.eqb_eq in E. symmetry. exact E.
Qed.

Lemma save_image_appends_witness :
  exists image,
    snd (Legacy.save_image Demo.runtime "id-1" 5 "gold ring"
           "http://example.org/ring.png" EmptyString EmptyString 0 [])
      = [image] /\
    Legacy._id image = "id-1" /\ Legacy.prompt image = "gold ring" /\
    Legacy.imageUrl image = "http://example.org/ring.png" /\
    Legacy.createdAt image = 5 /\
    (Js.startsWith "data:image/" "http://example.org/ring.png" = false ->
     Legacy.imageData image = None /\ Legacy.imageFormat image = "png" /\
     Legacy.imageSize image = 0).
Proof.
  apply (proj1 (proj2 (save_image_appends Demo.runtime "id-1" 5 "gold ring"
                         "http://example.org/ring.png" EmptyString EmptyString
                         0 []))).
  reflexivity.
Defined.

Lemma extension_well_formed_witness :
  extension_of Demo.jpeg = "jpeg".
Proof.
  apply (proj2 (proj2 (extension_well_formed Demo.jpeg))).
  reflexivity.
Defined.

Lemma image_save_accepted_iff_witness :
  status (fst (update_product_image Backend Demo.runtime Demo.config 1 "1001"
                 "Final" Demo.jpeg Demo.world)) = 200.
Proof.
  apply (proj2 (image_save_accepted_iff Backend Demo.runtime Demo.config 1
                  "1001" "Final" Demo.jpeg Demo.world)).
  split; [discriminate |]. split; [eexists; reflexivity |].
  split; [tauto |]. split; [reflexivity |].
  split; [eexists; reflexivity | reflexivity].
Defined.

Lemma upload_errors_witness :
  error_middleware (MulterError "LIMIT_UNEXPECTED_FILE" "Unexpected field")
    = mkResponse 500 (JsonError "Unexpected field").
Proof.
  apply (proj2 (proj2 upload_errors)
           (MulterError "LIMIT_UNEXPECTED_FILE" "Unexpected field")).
  discriminate.
Defined.
